(** * NIFTY options screener (app13.py): signal composition over intraday bars

    A shallow embedding of the Streamlit script [app13.py]: the cached
    Yahoo Finance fetch, the indicator attachment, the 10:00 time filter,
    the CALL/PUT entry and exit rules, the per-stock entry duration and
    the two dashboard views.

    Numeric columns are pandas [float64] columns; they are modelled by the
    IEEE 754 binary64 specification [spec_float] (53 bits of precision,
    exponent bound 1024), where NaN is the missing value.  The external
    collaborators (the [yfinance] download and the [ta] indicator
    classes) are parameters of the functions that call them. *)

From Stdlib Require Import ZArith List Bool String Lia.
From Stdlib Require Import Sorting.Permutation Sorting.Sorted.
From Stdlib Require Import Floats.SpecFloat.
From stdpp Require Import gmap strings.

Import ListNotations.
Local Open Scope Z_scope.

(* ===================================================================== *)
(** ** float64 values and the comparisons pandas applies to them *)
(* ===================================================================== *)

Module F64.

Definition prec : Z := 53.
Definition emax : Z := 1024.

Definition nan : spec_float := S754_nan.

(** int -> float64 conversion (round to nearest even). *)
Definition of_Z (z : Z) : spec_float := binary_normalize prec emax z 0 false.

Definition sub (x y : spec_float) : spec_float := SFsub prec emax x y.
Definition mul (x y : spec_float) : spec_float := SFmul prec emax x y.
Definition div (x y : spec_float) : spec_float := SFdiv prec emax x y.
Definition abs (x : spec_float) : spec_float := SFabs x.

(** [x <= y], [x < y], [x >= y], [x > y]: false as soon as one side is
    NaN. *)
Definition le (x y : spec_float) : bool := SFleb x y.
Definition lt (x y : spec_float) : bool := SFltb x y.
Definition ge (x y : spec_float) : bool := SFleb y x.
Definition gt (x y : spec_float) : bool := SFltb y x.

(** [Series.between(left, right)] with its default [inclusive="both"]:
    [(left <= s) & (s <= right)]. *)
Definition between (x lo hi : spec_float) : bool := ge x lo && le x hi.

Definition is_nan (x : spec_float) : bool :=
  match x with S754_nan => true | _ => false end.

(** The sign-bit-clear, non-NaN values: +0, positive finite, +inf. *)
Definition nonneg (x : spec_float) : Prop :=
  match x with
  | S754_zero false | S754_infinity false | S754_finite false _ _ => True
  | _ => False
  end.

End F64.

(* ===================================================================== *)
(** ** Timestamps and time of day *)
(* ===================================================================== *)

(** A pandas [Timestamp] of a (possibly timezone-aware) [datetime64[ns]]
    column: nanoseconds since the epoch in UTC, and the UTC offset of the
    column's zone at that instant (0 for a naive column). *)
Record timestamp := mk_timestamp {
  ts_utc : Z;
  ts_offset : Z
}.

Definition ns_per_us : Z := 1000.
Definition ns_per_second : Z := 1000000000.
Definition ns_per_minute : Z := 60 * ns_per_second.
Definition ns_per_hour : Z := 3600 * ns_per_second.
Definition ns_per_day : Z := 86400 * ns_per_second.

(** Wall-clock nanoseconds, and nanoseconds since local midnight. *)
Definition wall_ns (t : timestamp) : Z := ts_utc t + ts_offset t.
Definition ns_of_day (t : timestamp) : Z := wall_ns t mod ns_per_day.

(** [datetime.time]: hour, minute, second, microsecond. *)
Record time := mk_time {
  hour : Z;
  minute : Z;
  second : Z;
  microsecond : Z
}.

(** [Series.dt.time]: the wall-clock time of day, nanoseconds dropped. *)
Definition dt_time (t : timestamp) : time :=
  let n := ns_of_day t in
  {| hour := n / ns_per_hour;
     minute := (n / ns_per_minute) mod 60;
     second := (n / ns_per_second) mod 60;
     microsecond := (n / ns_per_us) mod 1000000 |}.

(** [datetime.time.__ge__] on naive times: lexicographic on
    (hour, minute, second, microsecond). *)
Definition time_ge (a b : time) : bool :=
  match hour a ?= hour b with
  | Gt => true
  | Lt => false
  | Eq =>
    match minute a ?= minute b with
    | Gt => true
    | Lt => false
    | Eq =>
      match second a ?= second b with
      | Gt => true
      | Lt => false
      | Eq => microsecond b <=? microsecond a
      end
    end
  end.

(** [datetime.time(10, 0)]. *)
Definition ten_oclock : time :=
  {| hour := 10; minute := 0; second := 0; microsecond := 0 |}.

(* ===================================================================== *)
(** ** Frames: what [yf.download] returns and what [fetch_data] makes of it *)
(* ===================================================================== *)

(** The column axis of a DataFrame: a flat [pd.Index] of labels, or a
    two-level [pd.MultiIndex] of label tuples (yfinance: (Price, Ticker)). *)
Inductive columns :=
| Index (labels : list string)
| MultiIndex (tuples : list (string * string)).

(** The frame [yf.download] returns: a column axis and, per row, the index
    timestamp with the row's cells in column order.  Price and volume cells
    are numeric, so [pd.to_numeric(..., errors="coerce")] leaves them as
    they are. *)
Record raw_frame := mk_raw_frame {
  rf_columns : columns;
  rf_rows : list (timestamp * list spec_float)
}.

Definition n_columns (c : columns) : nat :=
  match c with
  | Index l => length l
  | MultiIndex l => length l
  end.

(** [df.empty]: some axis has length 0. *)
Definition df_empty (df : raw_frame) : bool :=
  match rf_rows df, n_columns (rf_columns df) with
  | [], _ => true
  | _, O => true
  | _, _ => false
  end.

(** [df.columns.get_level_values(0)]. *)
Definition get_level_values_0 (tuples : list (string * string)) : list string :=
  map fst tuples.

(** [if isinstance(df.columns, pd.MultiIndex):
       df.columns = df.columns.get_level_values(0)] *)
Definition flatten_columns (c : columns) : list string :=
  match c with
  | Index l => l
  | MultiIndex t => get_level_values_0 t
  end.

(** Exceptions that end the script run; [StopException] is what
    [st.stop()] raises, [ValueError] what an indicator class of [ta]
    raises on a frame it cannot work on. *)
Inductive exn := KeyError | TypeError | ValueError | StopException.

Inductive result (A : Type) :=
| Ok (a : A)
| Raise (e : exn).
Arguments Ok {A} a.
Arguments Raise {A} e.

(** Positions of a label on a flat column axis. *)
Fixpoint positions (col : string) (labels : list string) (i : nat) : list nat :=
  match labels with
  | [] => []
  | l :: ls => if String.eqb l col then i :: positions col ls (S i)
               else positions col ls (S i)
  end.

(** [df[col]] where a 1-D series is needed: the label must occur exactly
    once (absent: KeyError; repeated: a 2-D frame comes back and
    [pd.to_numeric] raises TypeError). *)
Definition getitem (labels : list string) (col : string) : result nat :=
  match positions col labels 0 with
  | [] => Raise KeyError
  | [p] => Ok p
  | _ => Raise TypeError
  end.

(** One bar of the frame [fetch_data] returns. *)
Record bar := mk_bar {
  Datetime : timestamp;
  Open : spec_float;
  High : spec_float;
  Low : spec_float;
  Close : spec_float;
  Volume : spec_float;
  Stock : string
}.

Definition cell (cells : list spec_float) (p : nat) : spec_float :=
  nth p cells F64.nan.

(** The body of [fetch_data] once the download has returned [df]:
    [None] on an empty frame, else flatten the columns, move the index
    into [Datetime], read the five OHLCV columns and tag the symbol. *)
Definition fetch_data_of (symbol : string) (df : raw_frame)
  : result (option (list bar)) :=
  if df_empty df then Ok None
  else
    let labels := flatten_columns (rf_columns df) in
    match getitem labels "Open", getitem labels "High", getitem labels "Low",
          getitem labels "Close", getitem labels "Volume" with
    | Ok o, Ok h, Ok l, Ok c, Ok v =>
      Ok (Some (map (fun row : timestamp * list spec_float =>
                       {| Datetime := fst row;
                          Open := cell (snd row) o;
                          High := cell (snd row) h;
                          Low := cell (snd row) l;
                          Close := cell (snd row) c;
                          Volume := cell (snd row) v;
                          Stock := symbol |})
                    (rf_rows df)))
    | Raise e, _, _, _, _ => Raise e
    | _, Raise e, _, _, _ => Raise e
    | _, _, Raise e, _, _ => Raise e
    | _, _, _, Raise e, _ => Raise e
    | _, _, _, _, Raise e => Raise e
    end.

(* ===================================================================== *)
(** ** The [ta] indicator library and [add_indicators] *)
(* ===================================================================== *)

(** The indicator classes of [ta] used by the script, each as a function
    from its input series (and window) to its output series, [None] when
    the class raises instead ([ADXIndicator] does so, with a ValueError,
    on a frame shorter than its window). *)
Record ta_lib := mk_ta_lib {
  bollinger_hband : Z -> list spec_float -> option (list spec_float);
  bollinger_lband : Z -> list spec_float -> option (list spec_float);
  rsi : Z -> list spec_float -> option (list spec_float);
  williams_r : Z -> list spec_float -> list spec_float -> list spec_float
               -> option (list spec_float);
  adx_pos : Z -> list spec_float -> list spec_float -> list spec_float
            -> option (list spec_float);
  adx_neg : Z -> list spec_float -> list spec_float -> list spec_float
            -> option (list spec_float);
  sma_indicator : Z -> list spec_float -> option (list spec_float)
}.

(** A bar with its indicator columns. *)
Record row := mk_row {
  r_bar : bar;
  BB60 : spec_float;
  BB105 : spec_float;
  BB150 : spec_float;
  RSI20 : spec_float;
  WILLR28 : spec_float;
  DI6_pos : spec_float;    (* "+DI6" *)
  DI6_neg : spec_float;    (* "-DI6" *)
  DI20_pos : spec_float;   (* "+DI20" *)
  DI20_neg : spec_float;   (* "-DI20" *)
  MA8 : spec_float
}.

(** [(hband - lband) / close * 100] at one position. *)
Definition band_width (hband lband close : spec_float) : spec_float :=
  F64.mul (F64.div (F64.sub hband lband) close) (F64.of_Z 100).

(** Value of a series at a row position; a position the series lacks is
    NaN after alignment on the frame's index. *)
Definition at_pos (s : list spec_float) (i : nat) : spec_float :=
  nth i s F64.nan.

(** A call into the library: its series goes on to [k], its exception
    ends the function. *)
Definition ta_call {A : Type} (s : option (list spec_float))
    (k : list spec_float -> result A) : result A :=
  match s with
  | Some series => k series
  | None => Raise ValueError
  end.

(** The rows [add_indicators] returns once every library call has given
    its series. *)
Definition indicator_rows (df : list bar)
    (hb60 lb60 hb105 lb105 hb150 lb150 rsi20 willr28 pdi6 ndi6 pdi20 ndi20
     ma8 : list spec_float) : list row :=
  map (fun ib : nat * bar =>
         let i := fst ib in
         let b := snd ib in
         {| r_bar := b;
            BB60 := band_width (at_pos hb60 i) (at_pos lb60 i) (Close b);
            BB105 := band_width (at_pos hb105 i) (at_pos lb105 i) (Close b);
            BB150 := band_width (at_pos hb150 i) (at_pos lb150 i) (Close b);
            RSI20 := at_pos rsi20 i;
            WILLR28 := at_pos willr28 i;
            DI6_pos := at_pos pdi6 i;
            DI6_neg := at_pos ndi6 i;
            DI20_pos := at_pos pdi20 i;
            DI20_neg := at_pos ndi20 i;
            MA8 := at_pos ma8 i |})
      (combine (seq 0 (length df)) df).

(** [add_indicators(df)]: the library calls in the order of the source;
    the first one that raises ends the function with its exception. *)
Definition add_indicators (ta : ta_lib) (df : list bar) : result (list row) :=
  let close := map Close df in
  let high := map High df in
  let low := map Low df in
  ta_call (bollinger_hband ta 60 close) (fun hb60 =>
  ta_call (bollinger_lband ta 60 close) (fun lb60 =>
  ta_call (bollinger_hband ta 105 close) (fun hb105 =>
  ta_call (bollinger_lband ta 105 close) (fun lb105 =>
  ta_call (bollinger_hband ta 150 close) (fun hb150 =>
  ta_call (bollinger_lband ta 150 close) (fun lb150 =>
  ta_call (rsi ta 20 close) (fun rsi20 =>
  ta_call (williams_r ta 28 high low close) (fun willr28 =>
  ta_call (adx_pos ta 6 high low close) (fun pdi6 =>
  ta_call (adx_neg ta 6 high low close) (fun ndi6 =>
  ta_call (adx_pos ta 20 high low close) (fun pdi20 =>
  ta_call (adx_neg ta 20 high low close) (fun ndi20 =>
  ta_call (sma_indicator ta 8 close) (fun ma8 =>
  Ok (indicator_rows df hb60 lb60 hb105 lb105 hb150 lb150 rsi20 willr28
        pdi6 ndi6 pdi20 ndi20 ma8)))))))))))))).

(* ===================================================================== *)
(** ** [@st.cache_data] and the main loop *)
(* ===================================================================== *)

(** What outlives one run of the script in the Streamlit server process:
    the [st.cache_data] store of [fetch_data], keyed by the call's only
    argument, and (for accounting) the symbols [yf.download] was called
    with, oldest first.  The decorator is used without [ttl] or
    [max_entries] and the script never calls [clear()], so nothing below
    removes an entry.  A cached value is handed out as a copy, so
    [add_indicators] writing columns into it does not touch the store. *)
Record world := mk_world {
  cache : gmap string (option (list bar));
  requests : list string
}.

Definition fresh_world : world := {| cache := ∅; requests := [] |}.

(** [fetch_data(symbol)] under [@st.cache_data]: a hit returns the stored
    value without running the body; a miss runs the body (one download)
    and stores what it returns; an exception is not stored.
    [download symbol] is [yf.download(symbol, period="5d", interval="5m",
    progress=False, auto_adjust=False)]; yfinance logs a retrieval that
    failed and returns an empty frame for it. *)
Definition fetch_data (download : string -> raw_frame) (symbol : string)
    (w : world) : result (option (list bar)) * world :=
  match cache w !! symbol with
  | Some data => (Ok data, w)
  | None =>
    let asked := requests w ++ [symbol] in
    match fetch_data_of symbol (download symbol) with
    | Ok data =>
      (Ok data, {| cache := <[symbol := data]> (cache w); requests := asked |})
    | Raise e => (Raise e, {| cache := cache w; requests := asked |})
    end
  end.

(** [for stock in stocks: data = fetch_data(stock);
       if data is not None: frames.append(add_indicators(data))] *)
Fixpoint main_loop (download : string -> raw_frame) (ta : ta_lib)
    (stocks : list string) (frames : list (list row)) (w : world)
    : result (list (list row)) * world :=
  match stocks with
  | [] => (Ok frames, w)
  | stock :: rest =>
    match fetch_data download stock w with
    | (Ok (Some data), w') =>
      match add_indicators ta data with
      | Ok frame => main_loop download ta rest (frames ++ [frame]) w'
      | Raise e => (Raise e, w')
      end
    | (Ok None, w') => main_loop download ta rest frames w'
    | (Raise e, w') => (Raise e, w')
    end
  end.

(** The loop followed by [if not frames: st.error(...); st.stop()] and
    [df = pd.concat(frames, ignore_index=True)]. *)
Definition main_pipeline (download : string -> raw_frame) (ta : ta_lib)
    (stocks : list string) (w : world) : result (list row) * world :=
  match main_loop download ta stocks [] w with
  | (Ok [], w') => (Raise StopException, w')
  | (Ok frames, w') => (Ok (concat frames), w')
  | (Raise e, w') => (Raise e, w')
  end.

(* ===================================================================== *)
(** ** Signal composer *)
(* ===================================================================== *)

(** [df["Time"] = df["Datetime"].dt.time] *)
Definition Time_of (r : row) : time := dt_time (Datetime (r_bar r)).

(** [df = df[df["Time"] >= datetime.time(10, 0)]] *)
Definition time_filter (df : list row) : list row :=
  List.filter (fun r => time_ge (Time_of r) ten_oclock) df.

Definition call_entry (r : row) : bool :=
  F64.le (BB60 r) (F64.of_Z 35) &&
  F64.between (RSI20 r) (F64.of_Z 65) (F64.of_Z 100) &&
  F64.between (WILLR28 r) (F64.of_Z (-20)) (F64.of_Z 0) &&
  F64.ge (DI6_pos r) (F64.of_Z 40) && F64.le (DI6_neg r) (F64.of_Z 12) &&
  F64.ge (DI20_pos r) (F64.of_Z 35) && F64.le (DI20_neg r) (F64.of_Z 15).

Definition put_entry (r : row) : bool :=
  F64.le (BB60 r) (F64.of_Z 35) &&
  F64.between (RSI20 r) (F64.of_Z 1) (F64.of_Z 40) &&
  F64.between (WILLR28 r) (F64.of_Z (-100)) (F64.of_Z (-80)) &&
  F64.ge (DI6_neg r) (F64.of_Z 35) && F64.le (DI6_pos r) (F64.of_Z 15) &&
  F64.ge (DI20_neg r) (F64.of_Z 30) && F64.le (DI20_pos r) (F64.of_Z 15).

Definition call_exit (r : row) : bool :=
  F64.lt (F64.abs (F64.sub (DI20_pos r) (DI20_neg r))) (F64.of_Z 10)
  || F64.lt (Close (r_bar r)) (MA8 r).

Definition put_exit (r : row) : bool :=
  F64.lt (F64.abs (F64.sub (DI20_pos r) (DI20_neg r))) (F64.of_Z 10)
  || F64.gt (Close (r_bar r)) (MA8 r).

(** [df["Datetime"].where(df["CALL_ENTRY"] | df["PUT_ENTRY"])]: the bar's
    timestamp on an entry bar, NaT ([None]) elsewhere. *)
Definition entry_time (r : row) : option timestamp :=
  if call_entry r || put_entry r then Some (Datetime (r_bar r)) else None.

(** Earlier of two timestamps (instants compare by their UTC value). *)
Definition ts_min (a b : timestamp) : timestamp :=
  if ts_utc b <? ts_utc a then b else a.

(** [x.min()] for the group of one stock: the earliest non-NaT entry time
    among the rows of that stock, NaT when the group has none. *)
Fixpoint group_min (stock : string) (df : list row) : option timestamp :=
  match df with
  | [] => None
  | r :: rest =>
    let m := group_min stock rest in
    if String.eqb (Stock (r_bar r)) stock then
      match entry_time r, m with
      | Some t, Some m' => Some (ts_min t m')
      | Some t, None => Some t
      | None, _ => m
      end
    else m
  end.

(** [Timedelta.total_seconds() / 60] of a timedelta of [d] nanoseconds:
    the int64 count divided by 10^9, then by 60, both in float64. *)
Definition total_minutes (d : Z) : spec_float :=
  F64.div (F64.div (F64.of_Z d) (F64.of_Z ns_per_second)) (F64.of_Z 60).

(** One cell of
    [df.groupby("Stock")["Entry_Time"]
       .transform(lambda x: (x - x.min()).dt.total_seconds() / 60)]:
    NaT minus anything is NaT, whose minutes are NaN. *)
Definition duration_min (df : list row) (r : row) : spec_float :=
  match entry_time r, group_min (Stock (r_bar r)) df with
  | Some t, Some m => total_minutes (ts_utc t - ts_utc m)
  | _, _ => F64.nan
  end.

(** A row of the composed table. *)
Record signal_row := mk_signal_row {
  sr_row : row;
  Time : time;
  CALL_ENTRY : bool;
  PUT_ENTRY : bool;
  CALL_EXIT : bool;
  PUT_EXIT : bool;
  Entry_Time : option timestamp;
  Duration_Min : spec_float
}.

(** The statements from the time filter to [Duration_Min], on the
    concatenated frame.  The frame's [Datetime] is one datetime column
    (every instrument quoted in the same time zone, as the symbols of one
    exchange are); a concatenation that mixes zones has an object column,
    on which [.dt] raises, and is not a frame this function describes. *)
Definition compose (df : list row) : list signal_row :=
  let df := time_filter df in
  map (fun r =>
         {| sr_row := r;
            Time := Time_of r;
            CALL_ENTRY := call_entry r;
            PUT_ENTRY := put_entry r;
            CALL_EXIT := call_exit r;
            PUT_EXIT := put_exit r;
            Entry_Time := entry_time r;
            Duration_Min := duration_min df r |})
      df.

(* ===================================================================== *)
(** ** Dashboard views *)
(* ===================================================================== *)

(** Ascending order on the [BB60] key with NaN last
    ([sort_values] default [na_position="last"]). *)
Definition BB60_before (a b : signal_row) : bool :=
  F64.is_nan (BB60 (sr_row b)) || F64.le (BB60 (sr_row a)) (BB60 (sr_row b)).

Fixpoint insert_by_BB60 (a : signal_row) (l : list signal_row)
  : list signal_row :=
  match l with
  | [] => [a]
  | b :: l' => if BB60_before a b then a :: l else b :: insert_by_BB60 a l'
  end.

(** [.sort_values("BB60")]; how pandas orders rows of equal key is not
    fixed by its default sort, here they keep their relative order. *)
Definition sort_values_BB60 (l : list signal_row) : list signal_row :=
  fold_right insert_by_BB60 [] l.

(** [df[df["CALL_ENTRY"] & ~df["CALL_EXIT"]].sort_values("BB60")] *)
Definition call_df (df : list signal_row) : list signal_row :=
  sort_values_BB60
    (List.filter (fun s => CALL_ENTRY s && negb (CALL_EXIT s)) df).

(** [df[df["PUT_ENTRY"] & ~df["PUT_EXIT"]].sort_values("BB60")] *)
Definition put_df (df : list signal_row) : list signal_row :=
  sort_values_BB60
    (List.filter (fun s => PUT_ENTRY s && negb (PUT_EXIT s)) df).

(** What one run of the script shows. *)
Record dashboard := mk_dashboard {
  table : list signal_row;
  call_side : list signal_row;
  put_side : list signal_row
}.

(** One run of the script (one refresh cycle) from the state the server
    process is in. *)
Definition run_script (download : string -> raw_frame) (ta : ta_lib)
    (stocks : list string) (w : world) : result dashboard * world :=
  match main_pipeline download ta stocks w with
  | (Ok df, w') =>
    let df := compose df in
    (Ok {| table := df; call_side := call_df df; put_side := put_df df |}, w')
  | (Raise e, w') => (Raise e, w')
  end.

(* ===================================================================== *)
(** ** Vocabulary of the specification *)
(* ===================================================================== *)

(** 10:00:00 as nanoseconds since local midnight. *)
Definition ten_am_ns : Z := 10 * ns_per_hour.

(** The timestamp showing wall-clock time [h:m:s] on day number [day] in
    a zone [offset] nanoseconds ahead of UTC. *)
Definition ts_at (day h m s offset : Z) : timestamp :=
  {| ts_utc := day * ns_per_day + h * ns_per_hour + m * ns_per_minute
               + s * ns_per_second - offset;
     ts_offset := offset |}.

(** The row [r] with its bar stamped [t]. *)
Definition stamped (t : timestamp) (r : row) : row :=
  {| r_bar := {| Datetime := t;
                 Open := Open (r_bar r); High := High (r_bar r);
                 Low := Low (r_bar r); Close := Close (r_bar r);
                 Volume := Volume (r_bar r); Stock := Stock (r_bar r) |};
     BB60 := BB60 r; BB105 := BB105 r; BB150 := BB150 r;
     RSI20 := RSI20 r; WILLR28 := WILLR28 r;
     DI6_pos := DI6_pos r; DI6_neg := DI6_neg r;
     DI20_pos := DI20_pos r; DI20_neg := DI20_neg r;
     MA8 := MA8 r |}.

(** The seven inclusive comparisons of the CALL_ENTRY rule, one by one. *)
Definition call_conditions (r : row) : Prop :=
  F64.le (BB60 r) (F64.of_Z 35) = true /\
  (F64.ge (RSI20 r) (F64.of_Z 65) = true /\
   F64.le (RSI20 r) (F64.of_Z 100) = true) /\
  (F64.ge (WILLR28 r) (F64.of_Z (-20)) = true /\
   F64.le (WILLR28 r) (F64.of_Z 0) = true) /\
  F64.ge (DI6_pos r) (F64.of_Z 40) = true /\
  F64.le (DI6_neg r) (F64.of_Z 12) = true /\
  F64.ge (DI20_pos r) (F64.of_Z 35) = true /\
  F64.le (DI20_neg r) (F64.of_Z 15) = true.

(** Every CALL_ENTRY indicator other than BB60 sits on an inclusive bound
    of its condition. *)
Definition call_others_at_bound (r : row) : Prop :=
  (RSI20 r = F64.of_Z 65 \/ RSI20 r = F64.of_Z 100) /\
  (WILLR28 r = F64.of_Z (-20) \/ WILLR28 r = F64.of_Z 0) /\
  DI6_pos r = F64.of_Z 40 /\
  DI6_neg r = F64.of_Z 12 /\
  DI20_pos r = F64.of_Z 35 /\
  DI20_neg r = F64.of_Z 15.

(** The float64 nearest to 35.0001. *)
Definition f35_0001 : spec_float :=
  F64.div (F64.of_Z 350001) (F64.of_Z 10000).

(** Some indicator the entry rules compare is missing on the row. *)
Definition entry_indicator_missing (r : row) : Prop :=
  BB60 r = F64.nan \/ RSI20 r = F64.nan \/ WILLR28 r = F64.nan \/
  DI6_pos r = F64.nan \/ DI6_neg r = F64.nan \/
  DI20_pos r = F64.nan \/ DI20_neg r = F64.nan.

(** [m] is the earliest entry timestamp of [stock] in [df]: it is the
    timestamp of an entry bar of the stock, and no entry bar of the stock
    is earlier. *)
Definition earliest_entry (df : list row) (stock : string) (m : timestamp)
  : Prop :=
  (exists r, In r df /\ Stock (r_bar r) = stock /\ entry_time r = Some m) /\
  (forall r t, In r df -> Stock (r_bar r) = stock ->
               entry_time r = Some t -> ts_utc m <= ts_utc t).

(** The frame a single-level fetch of the same data would return. *)
Definition single_level (df : raw_frame) : raw_frame :=
  {| rf_columns := Index (flatten_columns (rf_columns df));
     rf_rows := rf_rows df |}.

(** "The cache is invalidated at the start of every new refresh cycle":
    a run of the script from any state of the server process goes as it
    would from that state with the cache emptied. *)
Definition cache_invalidated_each_cycle (download : string -> raw_frame)
    (ta : ta_lib) (stocks : list string) : Prop :=
  forall w : world,
    run_script download ta stocks w =
    run_script download ta stocks {| cache := ∅; requests := requests w |}.

(** What [fetch_data(symbol)] returns in state [w], whether from the
    cache or from a download. *)
Definition fetch_result (download : string -> raw_frame) (w : world)
    (symbol : string) : result (option (list bar)) :=
  match cache w !! symbol with
  | Some data => Ok data
  | None => fetch_data_of symbol (download symbol)
  end.

(** The main loop over given per-symbol fetch results. *)
Fixpoint loop_frames (ta : ta_lib) (f : string -> result (option (list bar)))
    (stocks : list string) (frames : list (list row))
    : result (list (list row)) :=
  match stocks with
  | [] => Ok frames
  | stock :: rest =>
    match f stock with
    | Ok (Some data) =>
      match add_indicators ta data with
      | Ok frame => loop_frames ta f rest (frames ++ [frame])
      | Raise e => Raise e
      end
    | Ok None => loop_frames ta f rest frames
    | Raise e => Raise e
    end
  end.

(* ===================================================================== *)
(** ** Sample data *)
(* ===================================================================== *)

(** UTC+05:30, the zone of NSE quotes. *)
Definition ist : Z := 19800 * ns_per_second.

Definition sample_bar (stock : string) (t : timestamp) : bar :=
  {| Datetime := t;
     Open := F64.of_Z 100; High := F64.of_Z 101; Low := F64.of_Z 99;
     Close := F64.of_Z 100; Volume := F64.of_Z 5000;
     Stock := stock |}.

(** A bar whose CALL_ENTRY indicators other than BB60 sit on their bounds. *)
Definition call_row (stock : string) (t : timestamp) (bb60 : spec_float)
  : row :=
  {| r_bar := sample_bar stock t;
     BB60 := bb60; BB105 := F64.nan; BB150 := F64.nan;
     RSI20 := F64.of_Z 65; WILLR28 := F64.of_Z (-20);
     DI6_pos := F64.of_Z 40; DI6_neg := F64.of_Z 12;
     DI20_pos := F64.of_Z 35; DI20_neg := F64.of_Z 15;
     MA8 := F64.of_Z 100 |}.

(** A bar whose PUT_ENTRY indicators sit on their bounds. *)
Definition put_row (stock : string) (t : timestamp) : row :=
  {| r_bar := sample_bar stock t;
     BB60 := F64.of_Z 35; BB105 := F64.nan; BB150 := F64.nan;
     RSI20 := F64.of_Z 40; WILLR28 := F64.of_Z (-80);
     DI6_pos := F64.of_Z 15; DI6_neg := F64.of_Z 35;
     DI20_pos := F64.of_Z 15; DI20_neg := F64.of_Z 30;
     MA8 := F64.of_Z 100 |}.

(** A bar inside the warm-up stretch: no indicator has a value yet. *)
Definition warmup_row (stock : string) (t : timestamp) : row :=
  {| r_bar := sample_bar stock t;
     BB60 := F64.nan; BB105 := F64.nan; BB150 := F64.nan;
     RSI20 := F64.nan; WILLR28 := F64.nan;
     DI6_pos := F64.nan; DI6_neg := F64.nan;
     DI20_pos := F64.nan; DI20_neg := F64.nan;
     MA8 := F64.nan |}.

(** Two bars at 10:00: BB60 exactly 35, and BB60 = 35.0001. *)
Definition boundary_sample : list row :=
  [ call_row "X.NS" (ts_at 19002 10 0 0 ist) (F64.of_Z 35);
    call_row "X.NS" (ts_at 19002 10 5 0 ist) f35_0001 ].

(** Instrument X fires entries 0, 15 and 40 minutes after 10:30, with a
    silent bar in between and another instrument's entry before them. *)
Definition duration_sample : list row :=
  [ call_row "Y.NS" (ts_at 19002 10 5 0 ist) (F64.of_Z 20);
    call_row "X.NS" (ts_at 19002 10 30 0 ist) (F64.of_Z 30);
    warmup_row "X.NS" (ts_at 19002 10 35 0 ist);
    put_row "X.NS" (ts_at 19002 10 45 0 ist);
    call_row "X.NS" (ts_at 19002 11 10 0 ist) (F64.of_Z 10) ].

Definition series_const (v : spec_float) (s : list spec_float)
  : list spec_float :=
  map (fun _ => v) s.

(** An indicator library with flat outputs: zero band width, every
    CALL_ENTRY comparison satisfied, and a moving average above the close
    on the first bar only. *)
Definition sample_ta : ta_lib :=
  {| bollinger_hband := fun _ close => Some close;
     bollinger_lband := fun _ close => Some close;
     rsi := fun _ close => Some (series_const (F64.of_Z 70) close);
     williams_r := fun _ _ _ close =>
       Some (series_const (F64.of_Z (-10)) close);
     adx_pos := fun _ _ _ close => Some (series_const (F64.of_Z 45) close);
     adx_neg := fun _ _ _ close => Some (series_const (F64.of_Z 10) close);
     sma_indicator := fun _ close =>
       match close with
       | [] => Some []
       | _ :: rest => Some (F64.of_Z 1000 :: rest)
       end |}.


(** The two-level column axis yfinance gives a one-ticker download. *)
Definition yf_columns (ticker : string) : columns :=
  MultiIndex [("Adj Close", ticker); ("Close", ticker); ("High", ticker);
              ("Low", ticker); ("Open", ticker); ("Volume", ticker)].

Definition sample_cells : list spec_float :=
  [F64.of_Z 100; F64.of_Z 100; F64.of_Z 101; F64.of_Z 99; F64.of_Z 100;
   F64.of_Z 5000].

(** A download in which B.NS and D.NS come back empty and every other
    symbol has two bars, at 10:00 and 10:05. *)
Definition sample_download (symbol : string) : raw_frame :=
  if String.eqb symbol "B.NS" || String.eqb symbol "D.NS"
  then {| rf_columns := yf_columns symbol; rf_rows := [] |}
  else {| rf_columns := yf_columns symbol;
          rf_rows := [ (ts_at 19002 10 0 0 ist, sample_cells);
                       (ts_at 19002 10 5 0 ist, sample_cells) ] |}.

Definition sample_stocks : list string :=
  ["A.NS"; "B.NS"; "C.NS"; "D.NS"; "E.NS"].

(* ===================================================================== *)
(** ** The instrument list and the whole script *)
(* ===================================================================== *)

(** The frame [pd.read_csv("nifty_stocks.csv")] returns: named columns of
    cells, a missing cell ([None]) being NaN. *)
Definition csv_frame : Type := list (string * list (option string)).

(** [df[name]], [None] when [name not in df.columns]. *)
Fixpoint csv_column (name : string) (df : csv_frame)
  : option (list (option string)) :=
  match df with
  | [] => None
  | (label, cells) :: rest =>
    if String.eqb label name then Some cells else csv_column name rest
  end.

(** [Series.dropna()]. *)
Fixpoint dropna (cells : list (option string)) : list string :=
  match cells with
  | [] => []
  | Some x :: rest => x :: dropna rest
  | None :: rest => dropna rest
  end.

Definition seen_before (x : string) (seen : list string) : bool :=
  existsb (String.eqb x) seen.

(** [Series.unique()]: the distinct values in order of first appearance;
    [seen] holds the values already met. *)
Fixpoint unique_from (seen : list string) (s : list string) : list string :=
  match s with
  | [] => []
  | x :: rest =>
    if seen_before x seen then unique_from seen rest
    else x :: unique_from (x :: seen) rest
  end.

Definition unique (s : list string) : list string := unique_from [] s.

(** The body of [load_stocks] once the CSV has been read. *)
Definition load_stocks_of (df : csv_frame) : result (list string) :=
  match csv_column "Stock" df with
  | None => Raise StopException
  | Some cells => Ok (unique (dropna cells))
  end.

(** The Streamlit server process between runs of the script: the
    [st.cache_data] entry of [load_stocks] (a function without arguments
    has one entry) and the state of [fetch_data]'s cache. *)
Record server := mk_server {
  stocks_cache : option (list string);
  fetches : world
}.

Definition fresh_server : server :=
  {| stocks_cache := None; fetches := fresh_world |}.

(** [load_stocks()] under [@st.cache_data]; [st.stop()] leaves nothing in
    the cache. *)
Definition load_stocks (csv : csv_frame) (sv : server)
  : result (list string) * server :=
  match stocks_cache sv with
  | Some stocks => (Ok stocks, sv)
  | None =>
    match load_stocks_of csv with
    | Ok stocks =>
      (Ok stocks, {| stocks_cache := Some stocks; fetches := fetches sv |})
    | Raise e => (Raise e, sv)
    end
  end.

(** One run of [app13.py] from top to bottom: [stocks = load_stocks()],
    then the pipeline and the dashboard. *)
Definition app13 (csv : csv_frame) (download : string -> raw_frame)
    (ta : ta_lib) (sv : server) : result dashboard * server :=
  match load_stocks csv sv with
  | (Ok stocks, sv1) =>
    match run_script download ta stocks (fetches sv1) with
    | (r, w) => (r, {| stocks_cache := stocks_cache sv1; fetches := w |})
    end
  | (Raise e, sv1) => (Raise e, sv1)
  end.

(** The integer a float64 value is equal to, when it is equal to one:
    a finite value is (-1)^s * m * 2^e. *)
Definition integer_value (x : spec_float) : option Z :=
  match x with
  | S754_zero _ => Some 0
  | S754_finite s m e =>
    let v := if s then Z.neg m else Z.pos m in
    if 0 <=? e then Some (v * 2 ^ e)
    else if v mod 2 ^ (- e) =? 0 then Some (v / 2 ^ (- e))
    else None
  | S754_infinity _ | S754_nan => None
  end.

(** The same float64 datum (sign, mantissa and exponent). *)
Definition float_same (x y : spec_float) : bool :=
  match x, y with
  | S754_zero a, S754_zero b => Bool.eqb a b
  | S754_infinity a, S754_infinity b => Bool.eqb a b
  | S754_nan, S754_nan => true
  | S754_finite s m e, S754_finite s' m' e' =>
    Bool.eqb s s' && Pos.eqb m m' && Z.eqb e e'
  | _, _ => false
  end.

(** Bars are five minutes apart ([interval="5m"]); the five trading days
    of [period="5d"] lie within fourteen calendar days, which hold 4032
    bar intervals. *)
Definition bar_minutes : Z := 5.
Definition fortnight_of_bars : Z := 14 * 24 * 12.

(** The float64 minutes of [k] bar intervals are that whole number of
    minutes. *)
Definition whole_bars (k : nat) : bool :=
  let minutes := Z.of_nat k * bar_minutes in
  let x := total_minutes (minutes * ns_per_minute) in
  float_same x (F64.of_Z minutes) &&
  match integer_value x with
  | Some z => z =? minutes
  | None => false
  end.

(** ... for every number of bars from 0 to [n]. *)
Definition whole_bars_exact (n : nat) : bool :=
  forallb whole_bars (seq 0 (S n)).


(** In state [w] the loop gets through [symbol]: [fetch_data] returns for
    it and, when it returns a frame, [add_indicators] returns on that
    frame. *)
Definition instrument_ok (download : string -> raw_frame) (ta : ta_lib)
    (w : world) (symbol : string) : Prop :=
  exists d,
    fetch_result download w symbol = Ok d /\
    forall bars, d = Some bars -> exists frame, add_indicators ta bars = Ok frame.

(** The cells of one downloaded row under [yf_columns], all different:
    Adj Close 1, Close 2, High 3, Low 4, Open 5, Volume 6. *)
Definition numbered_cells : list spec_float :=
  map F64.of_Z [1; 2; 3; 4; 5; 6].

(** The bars the batch has to show for a list of instruments: those
    fetched for each instrument, in list order, none for an instrument
    without data. *)
Definition fetched_bars (fetched : string -> result (option (list bar)))
    (stocks : list string) : list bar :=
  flat_map (fun s => match fetched s with
                     | Ok (Some bars) => bars
                     | _ => []
                     end)
           stocks.

(** The five columns [fetch_data] reads. *)
Definition ohlcv : list string := ["Open"; "High"; "Low"; "Close"; "Volume"].

(** Number of times a label occurs on a flat column axis. *)
Definition occurrences (col : string) (labels : list string) : nat :=
  length (List.filter (String.eqb col) labels).

(** The field of a bar that holds the column of that name. *)
Definition ohlcv_field (col : string) (b : bar) : spec_float :=
  if String.eqb col "Open" then Open b
  else if String.eqb col "High" then High b
  else if String.eqb col "Low" then Low b
  else if String.eqb col "Close" then Close b
  else Volume b.

(** Every frame in the cache came out of [fetch_data]: it has a row, and
    its rows carry the symbol it is stored under. *)
Definition cache_wf (w : world) : Prop :=
  forall symbol bars,
    cache w !! symbol = Some (Some bars) ->
    bars <> [] /\ Forall (fun b => Stock b = symbol) bars.

(** The first disjunct of both exit rules:
    [abs(df["+DI20"] - df["-DI20"]) < 10]. *)
Definition trend_collapsed (r : row) : bool :=
  F64.lt (F64.abs (F64.sub (DI20_pos r) (DI20_neg r))) (F64.of_Z 10).

(** Ascending BB60 between two rows of a view. *)
Definition BB60_le (a b : signal_row) : Prop :=
  F64.le (BB60 (sr_row a)) (BB60 (sr_row b)) = true.

(** An instrument list file with a repeated symbol and a blank cell. *)
Definition sample_csv : csv_frame :=
  [ ("Sector", [Some "IT"; Some "IT"; None; Some "Bank"]);
    ("Stock", [Some "A.NS"; Some "C.NS"; None; Some "A.NS"]) ].

(** A download whose frame for C.NS lacks the Close column. *)
Definition broken_download (symbol : string) : raw_frame :=
  if String.eqb symbol "C.NS"
  then {| rf_columns := Index ["Open"; "High"; "Low"; "Volume"];
          rf_rows := [ (ts_at 19002 10 0 0 ist,
                        [F64.of_Z 100; F64.of_Z 101; F64.of_Z 99;
                         F64.of_Z 5000]) ] |}
  else sample_download symbol.

(** A bar yfinance left without prices (a gap in the feed). *)
Definition gap_bar (stock : string) (t : timestamp) : bar :=
  {| Datetime := t;
     Open := F64.nan; High := F64.nan; Low := F64.nan; Close := F64.nan;
     Volume := F64.nan; Stock := stock |}.

(** [df["Stock"] == stock], row by row. *)
Definition of_stock (stock : string) (r : row) : bool :=
  String.eqb (Stock (r_bar r)) stock.

(* ===================================================================== *)
(** ** The order on float64 values *)
(* ===================================================================== *)

Ltac order_cases :=
  repeat match goal with
  | H : context [PosDef.Pos.compare_cont Eq ?a ?b] |- _ =>
    change (PosDef.Pos.compare_cont Eq a b) with (Pos.compare a b) in *
  | |- context [PosDef.Pos.compare_cont Eq ?a ?b] =>
    change (PosDef.Pos.compare_cont Eq a b) with (Pos.compare a b) in *
  | H : context [Z.compare ?a ?b] |- _ => destruct (Z.compare_spec a b)
  | |- context [Z.compare ?a ?b] => destruct (Z.compare_spec a b)
  | H : context [Pos.compare ?a ?b] |- _ => destruct (Pos.compare_spec a b)
  | |- context [Pos.compare ?a ?b] => destruct (Pos.compare_spec a b)
  end.

(** [<=] on floats is transitive (NaN is below and above nothing). *)
Lemma SFleb_trans (a b c : spec_float) :
  SFleb a b = true -> SFleb b c = true -> SFleb a c = true.
Proof.
  unfold SFleb, SFcompare.
  destruct a as [[]|[]| |[] ma ea], b as [[]|[]| |[] mb eb],
           c as [[]|[]| |[] mc ec];
    try reflexivity; try discriminate; intros H1 H2;
    order_cases; simpl in *; try reflexivity; try discriminate; try lia.
Qed.

Lemma SFltb_not_SFleb (a b : spec_float) :
  SFltb a b = true -> SFleb b a = false.
Proof.
  unfold SFleb, SFltb, SFcompare.
  destruct a as [[]|[]| |[] ma ea], b as [[]|[]| |[] mb eb];
    try reflexivity; try discriminate; intros H1;
    order_cases; simpl in *; try reflexivity; try discriminate; try lia.
Qed.

(** A value cannot be at least [lo] and at most [hi] when [lo <= hi]
    fails. *)
Lemma ge_le_disjoint (x lo hi : spec_float) :
  F64.le lo hi = false -> F64.ge x lo && F64.le x hi = false.
Proof.
  intros Hgap. unfold F64.ge, F64.le in *.
  destruct (SFleb lo x) eqn:H1; [ | reflexivity ].
  destruct (SFleb x hi) eqn:H2; [ | reflexivity ].
  rewrite (SFleb_trans _ _ _ H1 H2) in Hgap. discriminate.
Qed.

Lemma le_ge_disjoint (x lo hi : spec_float) :
  F64.le lo hi = false -> F64.le x hi && F64.ge x lo = false.
Proof. intros H. rewrite andb_comm. apply ge_le_disjoint, H. Qed.

Lemma between_disjoint (x lo1 hi1 lo2 hi2 : spec_float) :
  F64.le lo1 hi2 = false ->
  F64.between x lo1 hi1 && F64.between x lo2 hi2 = false.
Proof.
  intros Hgap. unfold F64.between.
  pose proof (ge_le_disjoint x lo1 hi2 Hgap) as H.
  destruct (F64.ge x lo1); [ | reflexivity ].
  destruct (F64.le x hi2); [ discriminate | ].
  rewrite andb_false_r. apply andb_false_r.
Qed.

(** Comparisons against a missing value. *)
Lemma le_nan_l (x : spec_float) : F64.le F64.nan x = false.
Proof. reflexivity. Qed.

Lemma ge_nan_l (x : spec_float) : F64.ge F64.nan x = false.
Proof. destruct x as [?|?| |? ? ?]; reflexivity. Qed.

Lemma between_nan (lo hi : spec_float) : F64.between F64.nan lo hi = false.
Proof. unfold F64.between. now rewrite ge_nan_l. Qed.

(* ===================================================================== *)
(** ** Rows of the composed table *)
(* ===================================================================== *)

(** Each row of the composed table is a row that passed the time filter,
    with its flags computed by the rules on that row. *)
Lemma compose_row (df : list row) (s : signal_row) :
  In s (compose df) ->
  In (sr_row s) (time_filter df) /\
  Time s = Time_of (sr_row s) /\
  CALL_ENTRY s = call_entry (sr_row s) /\
  PUT_ENTRY s = put_entry (sr_row s) /\
  CALL_EXIT s = call_exit (sr_row s) /\
  PUT_EXIT s = put_exit (sr_row s) /\
  Entry_Time s = entry_time (sr_row s) /\
  Duration_Min s = duration_min (time_filter df) (sr_row s).
Proof.
  unfold compose. intros H. apply in_map_iff in H.
  destruct H as [r [<- Hr]]. simpl. tauto.
Qed.

Lemma call_entry_conditions (r : row) :
  call_entry r = true <-> call_conditions r.
Proof.
  unfold call_entry, call_conditions, F64.between.
  rewrite !andb_true_iff. tauto.
Qed.

(** An entry rule is false on a row with a compared indicator missing. *)
Lemma entry_false_on_missing (r : row) :
  entry_indicator_missing r -> call_entry r = false /\ put_entry r = false.
Proof.
  unfold entry_indicator_missing, call_entry, put_entry.
  intros H; decompose [or] H; clear H;
    match goal with E : _ = F64.nan |- _ => rewrite E end;
    rewrite ?le_nan_l, ?ge_nan_l, ?between_nan, ?andb_false_r; split; reflexivity.
Qed.

Lemma entries_exclusive (r : row) : call_entry r && put_entry r = false.
Proof.
  pose proof (between_disjoint (RSI20 r) (F64.of_Z 65) (F64.of_Z 100)
                (F64.of_Z 1) (F64.of_Z 40) eq_refl) as H.
  destruct (call_entry r) eqn:Hc; [ | reflexivity ].
  destruct (put_entry r) eqn:Hp; [ | reflexivity ].
  unfold call_entry in Hc. unfold put_entry in Hp.
  rewrite !andb_true_iff in Hc, Hp.
  destruct Hc as [[[[[[_ Hc] _] _] _] _] _].
  destruct Hp as [[[[[[_ Hp] _] _] _] _] _].
  rewrite Hc, Hp in H. discriminate.
Qed.

(* ===================================================================== *)
(** ** Entry rules *)
(* ===================================================================== *)

(** C1. On every row of the composed table (every bar that passed the
    time filter) CALL_ENTRY is true exactly when the seven inclusive
    comparisons hold on that row's own indicators: BB60 <= 35,
    65 <= RSI20 <= 100, -20 <= WILLR28 <= 0, +DI6 >= 40, -DI6 <= 12,
    +DI20 >= 35, -DI20 <= 15.  With BB60 exactly 35 and every other
    compared indicator on an inclusive bound the flag is true; with
    BB60 = 35.0001, as with any BB60 above 35, it is false. *)
Theorem call_entry_inclusive_bounds (df : list row) (s : signal_row) :
  In s (compose df) ->
  (CALL_ENTRY s = true <-> call_conditions (sr_row s)) /\
  (BB60 (sr_row s) = F64.of_Z 35 -> call_others_at_bound (sr_row s) ->
   CALL_ENTRY s = true) /\
  (BB60 (sr_row s) = f35_0001 -> CALL_ENTRY s = false) /\
  (F64.gt (BB60 (sr_row s)) (F64.of_Z 35) = true -> CALL_ENTRY s = false).
Proof.
  intros Hs. apply compose_row in Hs.
  destruct Hs as (_ & _ & -> & _).
  split; [ apply call_entry_conditions | split; [ | split ] ].
  - intros Hbb (Hrsi & Hw & H1 & H2 & H3 & H4).
    unfold call_entry. rewrite Hbb, H1, H2, H3, H4.
    destruct Hrsi as [-> | ->], Hw as [-> | ->]; vm_compute; reflexivity.
  - intros Hbb. unfold call_entry. rewrite Hbb.
    change (F64.le f35_0001 (F64.of_Z 35)) with false. reflexivity.
  - intros Hgt. unfold call_entry, F64.le.
    rewrite (SFltb_not_SFleb _ _ Hgt). reflexivity.
Qed.

Lemma call_entry_inclusive_bounds_witness :
  exists s : signal_row,
    In s (compose boundary_sample) /\
    BB60 (sr_row s) = F64.of_Z 35 /\
    CALL_ENTRY s = true /\ call_conditions (sr_row s).
Proof.
  eexists. split; [ left; reflexivity | ].
  match goal with
  | |- BB60 (sr_row ?s) = _ /\ _ =>
    destruct (call_entry_inclusive_bounds boundary_sample s
                (or_introl eq_refl)) as [Hiff [Hat _]]
  end.
  assert (Hflag := Hat eq_refl
            (conj (or_introl eq_refl)
               (conj (or_introl eq_refl)
                  (conj eq_refl (conj eq_refl (conj eq_refl eq_refl)))))).
  split; [ reflexivity | split; [ exact Hflag | apply Hiff, Hflag ] ].
Defined.

(** C3. On every row of the composed table CALL_ENTRY and PUT_ENTRY are
    never both true, and the two rule sets are disjoint condition by
    condition: RSI20 in [65,100] against [1,40], WILLR28 in [-20,0]
    against [-100,-80], +DI6 >= 40 against <= 15, -DI6 <= 12 against
    >= 35, +DI20 >= 35 against <= 15, -DI20 <= 15 against >= 30. *)
Theorem entries_never_both (df : list row) (s : signal_row) :
  In s (compose df) ->
  CALL_ENTRY s && PUT_ENTRY s = false /\
  (forall x, F64.between x (F64.of_Z 65) (F64.of_Z 100)
             && F64.between x (F64.of_Z 1) (F64.of_Z 40) = false) /\
  (forall x, F64.between x (F64.of_Z (-20)) (F64.of_Z 0)
             && F64.between x (F64.of_Z (-100)) (F64.of_Z (-80)) = false) /\
  (forall x, F64.ge x (F64.of_Z 40) && F64.le x (F64.of_Z 15) = false) /\
  (forall x, F64.le x (F64.of_Z 12) && F64.ge x (F64.of_Z 35) = false) /\
  (forall x, F64.ge x (F64.of_Z 35) && F64.le x (F64.of_Z 15) = false) /\
  (forall x, F64.le x (F64.of_Z 15) && F64.ge x (F64.of_Z 30) = false).
Proof.
  intros Hs. apply compose_row in Hs.
  destruct Hs as (_ & _ & -> & -> & _).
  repeat split; intros;
    first [ apply entries_exclusive
          | apply between_disjoint; reflexivity
          | apply ge_le_disjoint; reflexivity
          | apply le_ge_disjoint; reflexivity ].
Qed.

Lemma entries_never_both_witness :
  exists s : signal_row,
    In s (compose duration_sample) /\
    PUT_ENTRY s = true /\ CALL_ENTRY s = false.
Proof.
  eexists. split; [ right; right; right; left; reflexivity | ].
  match goal with
  | |- PUT_ENTRY ?s = _ /\ _ =>
    destruct (entries_never_both duration_sample s
                (or_intror (or_intror (or_intror (or_introl eq_refl))))) as [Hex _]
  end.
  split; [ reflexivity | ].
  match type of Hex with
  | ?c && ?p = false => change p with true in Hex
  end.
  rewrite andb_true_r in Hex. exact Hex.
Defined.

(** C4. On a row of the composed table with a compared indicator missing
    (NaN), both entry flags are false: a comparison with a missing value
    on its left is false, whatever the bound.  [compose] is a total
    function, no row makes it fail. *)
Theorem missing_indicator_no_entry (df : list row) (s : signal_row) :
  In s (compose df) ->
  entry_indicator_missing (sr_row s) ->
  CALL_ENTRY s = false /\ PUT_ENTRY s = false /\
  (forall c, F64.le F64.nan c = false /\ F64.ge F64.nan c = false) /\
  (forall lo hi, F64.between F64.nan lo hi = false).
Proof.
  intros Hs Hmiss. apply compose_row in Hs.
  destruct Hs as (_ & _ & -> & -> & _).
  destruct (entry_false_on_missing _ Hmiss) as [Hc Hp].
  repeat split; auto using le_nan_l, ge_nan_l, between_nan.
Qed.

Lemma missing_indicator_no_entry_witness :
  exists s : signal_row,
    In s (compose duration_sample) /\
    RSI20 (sr_row s) = F64.nan /\
    CALL_ENTRY s = false /\ PUT_ENTRY s = false.
Proof.
  eexists. split; [ right; right; left; reflexivity | ].
  match goal with
  | |- RSI20 (sr_row ?s) = _ /\ _ =>
    destruct (missing_indicator_no_entry duration_sample s
                (or_intror (or_intror (or_introl eq_refl)))
                (or_intror (or_introl eq_refl))) as (Hc & Hp & _)
  end.
  split; [ reflexivity | split; assumption ].
Defined.

(* ===================================================================== *)
(** ** Time filter *)
(* ===================================================================== *)

Lemma ns_of_day_range (t : timestamp) : 0 <= ns_of_day t < ns_per_day.
Proof. unfold ns_of_day. apply Z.mod_pos_bound. reflexivity. Qed.

(** Comparing the [datetime.time] with 10:00 is comparing the nanoseconds
    since local midnight with ten hours. *)
Lemma time_ge_ten_oclock (t : timestamp) :
  time_ge (dt_time t) ten_oclock = (ten_am_ns <=? ns_of_day t).
Proof.
  pose proof (ns_of_day_range t) as Hr.
  unfold time_ge, dt_time, ten_oclock; simpl.
  set (n := ns_of_day t) in *.
  unfold ten_am_ns, ns_per_hour, ns_per_minute, ns_per_second, ns_per_us,
    ns_per_day in *.
  destruct (Z.compare_spec (n / (3600 * 1000000000)) 10) as [Hh|Hh|Hh].
  - assert (Hn : 10 * (3600 * 1000000000) <= n)
      by (Z.div_mod_to_equations; lia).
    apply Z.leb_le in Hn; rewrite Hn.
    destruct (Z.compare_spec ((n / (60 * 1000000000)) mod 60) 0)
      as [Hm|Hm|Hm]; [ | Z.div_mod_to_equations; lia | reflexivity ].
    destruct (Z.compare_spec ((n / 1000000000) mod 60) 0)
      as [Hs|Hs|Hs]; [ | Z.div_mod_to_equations; lia | reflexivity ].
    apply Z.leb_le. Z.div_mod_to_equations; lia.
  - symmetry; apply Z.leb_gt. Z.div_mod_to_equations; lia.
  - symmetry; apply Z.leb_le. Z.div_mod_to_equations; lia.
Qed.

(** Nanoseconds since midnight of a wall-clock reading, on any day and in
    any zone. *)
Lemma ns_of_day_ts_at (day h m s offset : Z) :
  0 <= h * ns_per_hour + m * ns_per_minute + s * ns_per_second < ns_per_day ->
  ns_of_day (ts_at day h m s offset)
  = h * ns_per_hour + m * ns_per_minute + s * ns_per_second.
Proof.
  intros Hr. unfold ns_of_day, wall_ns, ts_at; simpl.
  replace (day * ns_per_day + h * ns_per_hour + m * ns_per_minute
           + s * ns_per_second - offset + offset)
    with (h * ns_per_hour + m * ns_per_minute + s * ns_per_second
          + day * ns_per_day) by ring.
  rewrite Z_mod_plus_full. apply Z.mod_small, Hr.
Qed.

Lemma time_filter_ext (df : list row) :
  time_filter df
  = List.filter (fun r => ten_am_ns <=? ns_of_day (Datetime (r_bar r))) df.
Proof.
  unfold time_filter. apply filter_ext. intros r.
  unfold Time_of. apply time_ge_ten_oclock.
Qed.

Lemma compose_rows (df : list row) : map sr_row (compose df) = time_filter df.
Proof.
  unfold compose. rewrite map_map. simpl. apply map_id.
Qed.

(** C5. The time filter keeps exactly the rows whose wall-clock time of
    day is at or after 10:00:00 (in order, each as often as it occurs),
    and these are the rows of the composed table.  On every day and in
    every zone a bar stamped 09:59:59 is dropped and a bar stamped
    10:00:00 is kept. *)
Theorem time_filter_from_ten (df : list row) :
  time_filter df
  = List.filter (fun r => ten_am_ns <=? ns_of_day (Datetime (r_bar r))) df /\
  map sr_row (compose df) = time_filter df /\
  (forall day offset r,
     time_filter [stamped (ts_at day 9 59 59 offset) r] = []) /\
  (forall day offset r,
     time_filter [stamped (ts_at day 10 0 0 offset) r]
     = [stamped (ts_at day 10 0 0 offset) r]).
Proof.
  split; [ apply time_filter_ext | ].
  split; [ apply compose_rows | ].
  split; intros day offset r; rewrite time_filter_ext; simpl;
    rewrite ns_of_day_ts_at by (vm_compute; split; congruence);
    reflexivity.
Qed.

(* ===================================================================== *)
(** ** float64 results with the sign bit clear *)
(* ===================================================================== *)

Lemma shr_1_nonneg (mrs : shr_record) :
  0 <= shr_m mrs -> 0 <= shr_m (shr_1 mrs).
Proof.
  destruct mrs as [m r s]; simpl.
  destruct m as [|p|p]; [ | destruct p | ]; simpl; lia.
Qed.

Lemma iter_pos_invariant {A : Type} (P : A -> Prop) (f : A -> A) :
  (forall x, P x -> P (f x)) ->
  forall (p : positive) (x : A), P x -> P (@SpecFloat.iter_pos A f p x).
Proof.
  intros Hf p; induction p as [p IH|p IH|]; intros x Hx; simpl; auto.
Qed.

Lemma shr_nonneg (mrs : shr_record) (e n : Z) :
  0 <= shr_m mrs -> 0 <= shr_m (fst (shr mrs e n)).
Proof.
  intros H; unfold shr; destruct n; simpl; auto.
  apply (iter_pos_invariant (fun x => 0 <= shr_m x)); auto using shr_1_nonneg.
Qed.

Lemma shr_fexp_nonneg (m e : Z) (l : location) :
  0 <= m -> 0 <= shr_m (fst (shr_fexp F64.prec F64.emax m e l)).
Proof.
  intros H; unfold shr_fexp; apply shr_nonneg.
  destruct l as [|[]]; simpl; exact H.
Qed.

Lemma round_nearest_even_nonneg (m : Z) (l : location) :
  0 <= m -> 0 <= round_nearest_even m l.
Proof.
  intros H; unfold round_nearest_even.
  destruct l as [|[]]; try destruct (Z.even m); lia.
Qed.

(** Rounding a non-negative mantissa with a clear sign bit gives +0, a
    positive number or +inf, never NaN. *)
Lemma binary_round_aux_nonneg (mx ex : Z) (lx : location) :
  0 <= mx -> F64.nonneg (binary_round_aux F64.prec F64.emax false mx ex lx).
Proof.
  intros H; unfold binary_round_aux.
  pose proof (shr_fexp_nonneg mx ex lx H) as H1.
  destruct (shr_fexp F64.prec F64.emax mx ex lx) as [mrs' e']; simpl in H1.
  pose proof (shr_fexp_nonneg _ e' loc_Exact
                (round_nearest_even_nonneg _ (loc_of_shr_record mrs') H1))
    as H2.
  destruct (shr_fexp F64.prec F64.emax
              (round_nearest_even (shr_m mrs') (loc_of_shr_record mrs'))
              e' loc_Exact) as [mrs'' e'']; simpl in H2.
  destruct (shr_m mrs'') as [|p|p]; [ exact I | | lia ].
  destruct (e'' <=? F64.emax - F64.prec); exact I.
Qed.

Lemma of_Z_nonneg (z : Z) : 0 <= z -> F64.nonneg (F64.of_Z z).
Proof.
  intros H; unfold F64.of_Z, binary_normalize.
  destruct z as [|p|p]; [ exact I | | lia ].
  unfold binary_round.
  destruct (shl_align p 0 (fexp F64.prec F64.emax (Z.pos (digits2_pos p) + 0)))
    as [mz ez].
  apply binary_round_aux_nonneg; lia.
Qed.

Lemma div_nonneg (x : spec_float) (my : positive) (ey : Z) :
  F64.nonneg x -> F64.nonneg (F64.div x (S754_finite false my ey)).
Proof.
  intros H; destruct x as [[]|[]| |[] mx ex]; try contradiction; try exact I.
  unfold F64.div, SFdiv.
  destruct (SFdiv_core_binary F64.prec F64.emax (Z.pos mx) ex (Z.pos my) ey)
    as [[mz ez] lz] eqn:E.
  apply binary_round_aux_nonneg.
  unfold SFdiv_core_binary in E.
  match type of E with
  | (let '(q, r) := Z.div_eucl ?a ?b in _) = _ =>
    assert (Ha : 0 <= a);
    [ | pose proof (Z_div_mod a b ltac:(lia)) as Hd;
        destruct (Z.div_eucl a b) as [q r] ]
  end.
  - match goal with |- 0 <= match ?s with _ => _ end => destruct s end;
      try lia. apply Z.shiftl_nonneg; lia.
  - injection E as <- _ _. destruct Hd as [Hq Hr]. nia.
Qed.

Lemma total_minutes_nonneg (d : Z) : 0 <= d -> F64.nonneg (total_minutes d).
Proof.
  intros H; unfold total_minutes.
  change (F64.of_Z 60) with (S754_finite false 8444249301319680 (-47)).
  change (F64.of_Z ns_per_second)
    with (S754_finite false 8388608000000000 (-23)).
  apply div_nonneg, div_nonneg, of_Z_nonneg, H.
Qed.

Lemma nonneg_ge_zero (x : spec_float) :
  F64.nonneg x -> F64.ge x (F64.of_Z 0) = true.
Proof.
  destruct x as [[]|[]| |[] m e]; simpl; intros H; try tauto; reflexivity.
Qed.

Lemma nonneg_not_nan (x : spec_float) : F64.nonneg x -> F64.is_nan x = false.
Proof.
  destruct x as [[]|[]| |[] m e]; simpl; intros H; try tauto; reflexivity.
Qed.

(* ===================================================================== *)
(** ** Entry duration *)
(* ===================================================================== *)

Lemma ts_min_cases (a b : timestamp) :
  (ts_min a b = a \/ ts_min a b = b) /\
  ts_utc (ts_min a b) <= ts_utc a /\ ts_utc (ts_min a b) <= ts_utc b.
Proof.
  unfold ts_min. destruct (Z.ltb_spec (ts_utc b) (ts_utc a)); intuition lia.
Qed.

(** The group minimum is the earliest entry timestamp of the stock. *)
Lemma group_min_earliest (stock : string) (df : list row) (m : timestamp) :
  group_min stock df = Some m -> earliest_entry df stock m.
Proof.
  revert m. induction df as [|r df IH]; intros m; simpl; [ discriminate | ].
  destruct (String.eqb_spec (Stock (r_bar r)) stock) as [Hst|Hst].
  - destruct (entry_time r) as [t|] eqn:Et.
    + destruct (group_min stock df) as [m'|] eqn:Eg.
      * intros [= <-].
        destruct (IH m' eq_refl) as [(r' & Hin & Hs' & He') Hle].
        destruct (ts_min_cases t m') as ([-> | ->] & Hl1 & Hl2).
        -- split; [ exists r; simpl; auto | ].
           intros r0 t0 [<- | Hin0] Hs0 He0.
           ++ rewrite Et in He0. injection He0 as <-. lia.
           ++ specialize (Hle r0 t0 Hin0 Hs0 He0). lia.
        -- split; [ exists r'; simpl; auto | ].
           intros r0 t0 [<- | Hin0] Hs0 He0.
           ++ rewrite Et in He0. injection He0 as <-. lia.
           ++ exact (Hle r0 t0 Hin0 Hs0 He0).
      * intros [= <-]. split; [ exists r; simpl; auto | ].
        intros r0 t0 [<- | Hin0] Hs0 He0.
        -- rewrite Et in He0. injection He0 as <-. lia.
        -- exfalso. clear IH. revert Eg.
           induction df as [|r1 df IH1]; [ destruct Hin0 | ].
           simpl. destruct Hin0 as [<- | Hin0].
           ++ rewrite Hs0, String.eqb_refl, He0.
              destruct (group_min stock df); discriminate.
           ++ destruct (String.eqb (Stock (r_bar r1)) stock);
                [ destruct (entry_time r1);
                    [ destruct (group_min stock df); discriminate | ] | ];
                auto.
    + intros Hg. destruct (IH m Hg) as [(r' & Hin & Hs' & He') Hle].
      split; [ exists r'; simpl; auto | ].
      intros r0 t0 [<- | Hin0] Hs0 He0; [ congruence | eauto ].
  - intros Hg. destruct (IH m Hg) as [(r' & Hin & Hs' & He') Hle].
    split; [ exists r'; simpl; auto | ].
    intros r0 t0 [<- | Hin0] Hs0 He0; [ congruence | eauto ].
Qed.

(** A stock with an entry bar has a group minimum. *)
Lemma group_min_defined (df : list row) (r : row) (t : timestamp) :
  In r df -> entry_time r = Some t ->
  exists m, group_min (Stock (r_bar r)) df = Some m.
Proof.
  induction df as [|r1 df IH]; intros Hin He; [ destruct Hin | ].
  simpl. destruct Hin as [-> | Hin].
  - rewrite String.eqb_refl, He.
    destruct (group_min (Stock (r_bar r)) df); eauto.
  - destruct (IH Hin He) as [m Hm]. rewrite Hm.
    destruct (String.eqb (Stock (r_bar r1)) (Stock (r_bar r))); eauto.
    destruct (entry_time r1); eauto.
Qed.

Lemma entry_time_flags (r : row) :
  entry_time r = if call_entry r || put_entry r
                 then Some (Datetime (r_bar r)) else None.
Proof. reflexivity. Qed.

Lemma float_same_eq (x y : spec_float) : float_same x y = true -> x = y.
Proof.
  destruct x as [a|a| |a m e], y as [b|b| |b m' e']; simpl;
    try discriminate; try reflexivity.
  - intros H. apply Bool.eqb_prop in H. congruence.
  - intros H. apply Bool.eqb_prop in H. congruence.
  - rewrite !andb_true_iff. intros [[Hs Hm] He].
    apply Bool.eqb_prop in Hs. apply Pos.eqb_eq in Hm. apply Z.eqb_eq in He.
    congruence.
Qed.

Lemma whole_bars_checked :
  whole_bars_exact (Z.to_nat fortnight_of_bars) = true.
Proof. vm_compute. reflexivity. Qed.

Lemma whole_bars_upto (n k : nat) :
  whole_bars_exact n = true -> (k <= n)%nat -> whole_bars k = true.
Proof.
  unfold whole_bars_exact. rewrite forallb_forall. intros H Hk.
  apply H. apply in_seq. lia.
Qed.

(** Up to a fortnight of five-minute bars, the float64 division by 10^9
    and by 60 of a whole number of bar intervals is exact. *)
Lemma total_minutes_whole_bars (k : Z) :
  0 <= k <= fortnight_of_bars ->
  total_minutes (k * bar_minutes * ns_per_minute) = F64.of_Z (k * bar_minutes) /\
  integer_value (total_minutes (k * bar_minutes * ns_per_minute))
  = Some (k * bar_minutes).
Proof.
  intros Hk.
  assert (Hb : whole_bars (Z.to_nat k) = true).
  { apply (whole_bars_upto (Z.to_nat fortnight_of_bars));
      [ exact whole_bars_checked | lia ]. }
  unfold whole_bars in Hb. rewrite Z2Nat.id in Hb by lia.
  apply andb_true_iff in Hb. destruct Hb as [Hsame Hint].
  split; [ apply float_same_eq, Hsame | ].
  destruct (integer_value (total_minutes (k * bar_minutes * ns_per_minute)))
    as [z|]; [ | discriminate ].
  apply Z.eqb_eq in Hint. congruence.
Qed.

(** C2. On every row of the composed table where CALL_ENTRY or PUT_ENTRY
    holds, Duration_Min is the minutes (as pandas computes them in
    float64) elapsed from the earliest entry timestamp of the same stock
    among the time-filtered rows to the row's own timestamp; when the row
    is a whole number of five-minute bars after that first entry, up to a
    fortnight of them, Duration_Min is exactly five times that number (0,
    15 and 40 for entries 0, 3 and 8 bars after the first).  On a row
    with neither flag it is NaN. *)
Theorem duration_from_first_entry (df : list row) (s : signal_row) :
  In s (compose df) ->
  (CALL_ENTRY s || PUT_ENTRY s = true ->
   exists m,
     earliest_entry (time_filter df) (Stock (r_bar (sr_row s))) m /\
     Duration_Min s
     = total_minutes (ts_utc (Datetime (r_bar (sr_row s))) - ts_utc m) /\
     forall k,
       0 <= k <= fortnight_of_bars ->
       ts_utc (Datetime (r_bar (sr_row s))) - ts_utc m
       = k * bar_minutes * ns_per_minute ->
       Duration_Min s = F64.of_Z (k * bar_minutes) /\
       integer_value (Duration_Min s) = Some (k * bar_minutes)) /\
  (CALL_ENTRY s || PUT_ENTRY s = false -> Duration_Min s = F64.nan).
Proof.
  intros Hs. apply compose_row in Hs.
  destruct Hs as (Hin & _ & -> & -> & _ & _ & _ & ->).
  unfold duration_min. rewrite entry_time_flags.
  split; intros Hflag; rewrite Hflag; [ | reflexivity ].
  destruct (group_min_defined (time_filter df) (sr_row s)
              (Datetime (r_bar (sr_row s))) Hin) as [m Hm].
  { rewrite entry_time_flags, Hflag. reflexivity. }
  rewrite Hm. exists m.
  split; [ apply group_min_earliest, Hm | ].
  split; [ reflexivity | ].
  intros k Hk ->. apply total_minutes_whole_bars, Hk.
Qed.

(** The sample of the specification: entries of one instrument 0, 15 and
    40 minutes after its first one last 0, 15 and 40 minutes, all counted
    from the first entry; the silent bar in between has no duration. *)
Example duration_sample_minutes :
  map (fun s => (Stock (r_bar (sr_row s)), Duration_Min s))
      (compose duration_sample)
  = [ ("Y.NS", F64.of_Z 0); ("X.NS", F64.of_Z 0); ("X.NS", F64.nan);
      ("X.NS", F64.of_Z 15); ("X.NS", F64.of_Z 40) ].
Proof. vm_compute. reflexivity. Qed.

Lemma duration_from_first_entry_witness :
  exists s : signal_row,
    In s (compose duration_sample) /\
    PUT_ENTRY s = true /\
    Duration_Min s = F64.of_Z 15 /\
    integer_value (Duration_Min s) = Some 15 /\
    exists m,
      earliest_entry (time_filter duration_sample) "X.NS" m /\
      Duration_Min s
      = total_minutes (ts_utc (ts_at 19002 10 45 0 ist) - ts_utc m).
Proof.
  eexists. split; [ do 3 right; left; reflexivity | ].
  split; [ reflexivity | ].
  split; [ reflexivity | ]. split; [ reflexivity | ].
  match goal with
  | |- exists m, _ /\ Duration_Min ?s = _ =>
    destruct (duration_from_first_entry duration_sample s
                (or_intror (or_intror (or_intror (or_introl eq_refl)))))
      as [Hd _]
  end.
  destruct (Hd eq_refl) as (m & Hm & Hdur & _).
  exists m. split; [ exact Hm | exact Hdur ].
Defined.

(** C10. On every row of the composed table a Duration_Min that is
    defined (not NaN) is non-negative, it is defined on every entry bar,
    and it is exactly 0 on an entry bar that no entry bar of the same
    stock precedes. *)
Theorem duration_nonnegative (df : list row) (s : signal_row) :
  In s (compose df) ->
  (F64.is_nan (Duration_Min s) = false ->
   F64.ge (Duration_Min s) (F64.of_Z 0) = true) /\
  (Entry_Time s <> None -> F64.is_nan (Duration_Min s) = false) /\
  (forall t, Entry_Time s = Some t ->
     (forall r t', In r (time_filter df) ->
                   Stock (r_bar r) = Stock (r_bar (sr_row s)) ->
                   entry_time r = Some t' -> ts_utc t <= ts_utc t') ->
     Duration_Min s = F64.of_Z 0).
Proof.
  intros Hs. apply compose_row in Hs.
  destruct Hs as (Hin & _ & _ & _ & _ & _ & -> & ->).
  unfold duration_min.
  destruct (entry_time (sr_row s)) as [t|] eqn:Et.
  - destruct (group_min_defined _ _ _ Hin Et) as [m Hm]. rewrite Hm.
    destruct (group_min_earliest _ _ _ Hm) as [(r & Hr & Hst & Her) Hle].
    assert (Hd : 0 <= ts_utc t - ts_utc m)
      by (specialize (Hle _ _ Hin eq_refl Et); lia).
    pose proof (total_minutes_nonneg _ Hd) as Hnn.
    repeat split.
    + intros _. apply nonneg_ge_zero, Hnn.
    + intros _. apply nonneg_not_nan, Hnn.
    + intros t0 [= <-] Hfirst.
      specialize (Hfirst r m Hr Hst Her).
      replace (ts_utc t - ts_utc m) with 0 by lia. reflexivity.
  - repeat split; try discriminate; congruence.
Qed.

Lemma duration_nonnegative_witness :
  exists s : signal_row,
    In s (compose duration_sample) /\
    Entry_Time s <> None /\
    F64.ge (Duration_Min s) (F64.of_Z 0) = true.
Proof.
  eexists. split; [ do 3 right; left; reflexivity | ].
  match goal with
  | |- Entry_Time ?s <> None /\ _ =>
    destruct (duration_nonnegative duration_sample s
                (or_intror (or_intror (or_intror (or_introl eq_refl)))))
      as (Hge & Hdef & _)
  end.
  assert (Hentry : forall t : timestamp, Some t <> None) by discriminate.
  split; [ apply Hentry | apply Hge, Hdef, Hentry ].
Defined.

(* ===================================================================== *)
(** ** Dashboard views *)
(* ===================================================================== *)

Lemma insert_by_BB60_perm (a : signal_row) (l : list signal_row) :
  Permutation (insert_by_BB60 a l) (a :: l).
Proof.
  induction l as [|b l IH]; simpl; [ apply Permutation_refl | ].
  destruct (BB60_before a b); [ apply Permutation_refl | ].
  apply Permutation_trans with (b :: a :: l);
    [ apply perm_skip, IH | apply perm_swap ].
Qed.

(** Sorting by BB60 rearranges the rows and nothing else. *)
Lemma sort_values_BB60_perm (l : list signal_row) :
  Permutation (sort_values_BB60 l) l.
Proof.
  induction l as [|a l IH]; simpl; [ apply perm_nil | ].
  apply Permutation_trans with (a :: sort_values_BB60 l);
    [ apply insert_by_BB60_perm | apply perm_skip, IH ].
Qed.

Lemma active_flags (entry exit : bool) :
  entry && negb exit = true <-> entry = true /\ exit = false.
Proof. destruct entry, exit; simpl; intuition discriminate. Qed.

Lemma call_df_In (df : list signal_row) (s : signal_row) :
  In s (call_df df) <->
  In s df /\ CALL_ENTRY s = true /\ CALL_EXIT s = false.
Proof.
  unfold call_df. rewrite <- active_flags, <- (filter_In
    (fun s => CALL_ENTRY s && negb (CALL_EXIT s))).
  split; apply Permutation_in;
    [ | apply Permutation_sym ]; apply sort_values_BB60_perm.
Qed.

Lemma put_df_In (df : list signal_row) (s : signal_row) :
  In s (put_df df) <->
  In s df /\ PUT_ENTRY s = true /\ PUT_EXIT s = false.
Proof.
  unfold put_df. rewrite <- active_flags, <- (filter_In
    (fun s => PUT_ENTRY s && negb (PUT_EXIT s))).
  split; apply Permutation_in;
    [ | apply Permutation_sym ]; apply sort_values_BB60_perm.
Qed.

Lemma run_script_views (download : string -> raw_frame) (ta : ta_lib)
    (stocks : list string) (w w' : world) (d : dashboard) :
  run_script download ta stocks w = (Ok d, w') ->
  call_side d = call_df (table d) /\ put_side d = put_df (table d).
Proof.
  unfold run_script.
  destruct (main_pipeline download ta stocks w) as [[df|e] w1];
    intros [= <- _]; split; reflexivity.
Qed.

(** C6. In every dashboard the script produces, the CALL view holds
    exactly the rows of the composed table with CALL_ENTRY true and
    CALL_EXIT false (each as often as in the table), and the PUT view
    likewise with PUT_ENTRY and PUT_EXIT; a row with CALL_ENTRY and
    CALL_EXIT both true is not in the CALL view and is still a row of the
    table, with its CALL_ENTRY true. *)
Theorem active_views (download : string -> raw_frame) (ta : ta_lib)
    (stocks : list string) (w w' : world) (d : dashboard) :
  run_script download ta stocks w = (Ok d, w') ->
  Permutation (call_side d)
    (List.filter (fun s => CALL_ENTRY s && negb (CALL_EXIT s)) (table d)) /\
  Permutation (put_side d)
    (List.filter (fun s => PUT_ENTRY s && negb (PUT_EXIT s)) (table d)) /\
  (forall s, In s (call_side d) <->
             In s (table d) /\ CALL_ENTRY s = true /\ CALL_EXIT s = false) /\
  (forall s, In s (put_side d) <->
             In s (table d) /\ PUT_ENTRY s = true /\ PUT_EXIT s = false) /\
  (forall s, In s (table d) -> CALL_ENTRY s = true -> CALL_EXIT s = true ->
             ~ In s (call_side d) /\ In s (table d) /\ CALL_ENTRY s = true).
Proof.
  intros Hrun. destruct (run_script_views _ _ _ _ _ _ Hrun) as [-> ->].
  split; [ apply sort_values_BB60_perm | ].
  split; [ apply sort_values_BB60_perm | ].
  split; [ intros s; apply call_df_In | ].
  split; [ intros s; apply put_df_In | ].
  intros s Hin Hentry Hexit. split; [ | split; assumption ].
  rewrite call_df_In. intros (_ & _ & Hno). congruence.
Qed.

Lemma active_views_witness :
  exists (d : dashboard) (s : signal_row),
    fst (run_script sample_download sample_ta ["A.NS"] fresh_world) = Ok d /\
    In s (table d) /\ CALL_ENTRY s = true /\ CALL_EXIT s = true /\
    ~ In s (call_side d) /\ length (call_side d) = 1%nat.
Proof.
  destruct (run_script sample_download sample_ta ["A.NS"] fresh_world)
    as [[d|e] w'] eqn:Hrun; [ | vm_compute in Hrun; discriminate ].
  destruct (active_views _ _ _ _ _ _ Hrun) as (_ & _ & _ & _ & Hout).
  vm_compute in Hrun. injection Hrun as <- _.
  eexists. eexists. split; [ reflexivity | ].
  split; [ left; reflexivity | ].
  split; [ reflexivity | ].
  split; [ reflexivity | ].
  split; [ | reflexivity ].
  apply Hout; [ left; reflexivity | reflexivity | reflexivity ].
Defined.

(* ===================================================================== *)
(** ** The cached fetch and the main loop *)
(* ===================================================================== *)

(** One call of [fetch_data]: what it returns, and what it leaves in the
    cache. *)
Lemma fetch_data_step (download : string -> raw_frame) (symbol : string)
    (w w1 : world) (r : result (option (list bar))) :
  fetch_data download symbol w = (r, w1) ->
  r = fetch_result download w symbol /\
  (forall x, fetch_result download w1 x = fetch_result download w x) /\
  (forall x data, cache w !! x = Some data -> cache w1 !! x = Some data) /\
  (forall data, r = Ok data -> cache w1 !! symbol = Some data).
Proof.
  unfold fetch_data, fetch_result.
  destruct (cache w !! symbol) as [data|] eqn:Hc.
  - intros [= <- <-]. repeat split; auto. intros d [= <-]. exact Hc.
  - destruct (fetch_data_of symbol (download symbol)) as [data|e] eqn:Hf;
      intros [= <- <-]; simpl; repeat split; auto.
    + intros x. destruct (decide (symbol = x)) as [<- | Hne].
      * rewrite lookup_insert_eq, Hc. symmetry. exact Hf.
      * rewrite lookup_insert_ne by exact Hne. reflexivity.
    + intros x d Hx. destruct (decide (symbol = x)) as [<- | Hne];
        [ congruence | ]. rewrite lookup_insert_ne by exact Hne. exact Hx.
    + intros d [= <-]. apply lookup_insert_eq.
    + discriminate.
Qed.

(** A cache hit: the stored value comes back, nothing is downloaded and
    the state of the process is untouched, whatever the remote source
    would return now. *)
Lemma fetch_data_hit (download : string -> raw_frame) (symbol : string)
    (w : world) (data : option (list bar)) :
  cache w !! symbol = Some data ->
  fetch_data download symbol w = (Ok data, w).
Proof. intros H. unfold fetch_data. rewrite H. reflexivity. Qed.

Lemma loop_frames_ext (ta : ta_lib)
    (f g : string -> result (option (list bar))) (stocks : list string) :
  (forall s, In s stocks -> f s = g s) ->
  forall frames, loop_frames ta f stocks frames = loop_frames ta g stocks frames.
Proof.
  induction stocks as [|s stocks IH]; intros Hfg frames; simpl; auto.
  rewrite <- (Hfg s) by (left; reflexivity).
  assert (Hrest : forall s0, In s0 stocks -> f s0 = g s0)
    by (intros; apply Hfg; right; assumption).
  destruct (f s) as [[data|]|e]; auto.
  destruct (add_indicators ta data); auto.
Qed.

(** The frames the loop collects are those of the per-symbol fetch
    results. *)
Lemma main_loop_frames (download : string -> raw_frame) (ta : ta_lib)
    (stocks : list string) :
  forall frames w,
    fst (main_loop download ta stocks frames w)
    = loop_frames ta (fetch_result download w) stocks frames.
Proof.
  induction stocks as [|s stocks IH]; intros frames w; simpl; auto.
  destruct (fetch_data download s w) as [r w1] eqn:Hf.
  destruct (fetch_data_step _ _ _ _ _ Hf) as (-> & Hsame & _ & _).
  destruct (fetch_result download w s) as [[data|]|e]; simpl; auto.
  - destruct (add_indicators ta data) as [fr|e]; simpl; auto.
    rewrite IH; apply loop_frames_ext; intros; apply Hsame.
  - rewrite IH; apply loop_frames_ext; intros; apply Hsame.
Qed.

Lemma loop_frames_skip (ta : ta_lib)
    (f : string -> result (option (list bar))) (symbol : string)
    (before after : list string) :
  f symbol = Ok None ->
  forall frames,
    loop_frames ta f (before ++ symbol :: after) frames
    = loop_frames ta f (before ++ after) frames.
Proof.
  intros Hf. induction before as [|s before IH]; intros frames; simpl.
  - rewrite Hf. reflexivity.
  - destruct (f s) as [[data|]|e]; auto.
    destruct (add_indicators ta data); auto.
Qed.

Lemma main_pipeline_frames (download : string -> raw_frame) (ta : ta_lib)
    (stocks : list string) (w : world) :
  fst (main_pipeline download ta stocks w)
  = match loop_frames ta (fetch_result download w) stocks [] with
    | Ok [] => Raise StopException
    | Ok frames => Ok (concat frames)
    | Raise e => Raise e
    end.
Proof.
  unfold main_pipeline. rewrite <- main_loop_frames.
  destruct (main_loop download ta stocks [] w) as [[[|fr frames]|e] w1];
    reflexivity.
Qed.

Lemma run_script_table (download : string -> raw_frame) (ta : ta_lib)
    (stocks : list string) (w : world) :
  fst (run_script download ta stocks w)
  = match fst (main_pipeline download ta stocks w) with
    | Ok df => Ok {| table := compose df;
                     call_side := call_df (compose df);
                     put_side := put_df (compose df) |}
    | Raise e => Raise e
    end.
Proof.
  unfold run_script.
  destruct (main_pipeline download ta stocks w) as [[df|e] w1]; reflexivity.
Qed.

Lemma fetch_data_empty (download : string -> raw_frame) (symbol : string)
    (w : world) :
  df_empty (download symbol) = true ->
  cache w !! symbol = None ->
  fetch_data download symbol w
  = (Ok None, {| cache := <[symbol := None]> (cache w);
                 requests := requests w ++ [symbol] |}).
Proof.
  intros Hempty Hfresh. unfold fetch_data, fetch_data_of.
  rewrite Hfresh, Hempty. reflexivity.
Qed.

Lemma map_snd_enumerate {A : Type} (l : list A) (i : nat) :
  map snd (combine (seq i (length l)) l) = l.
Proof.
  revert i. induction l as [|a l IH]; intros i; simpl; [ reflexivity | ].
  rewrite IH. reflexivity.
Qed.

Lemma indicator_rows_bars (df : list bar)
    (hb60 lb60 hb105 lb105 hb150 lb150 rsi20 willr28 pdi6 ndi6 pdi20 ndi20
     ma8 : list spec_float) :
  map r_bar (indicator_rows df hb60 lb60 hb105 lb105 hb150 lb150 rsi20
               willr28 pdi6 ndi6 pdi20 ndi20 ma8) = df.
Proof.
  unfold indicator_rows. rewrite map_map. simpl.
  apply (map_snd_enumerate df 0).
Qed.

Ltac library_calls tac :=
  repeat match goal with
  | |- context [match ?o with Some _ => _ | None => _ end] =>
    destruct o; [ | tac ]
  end.

(** What [add_indicators] returns is built from the series the library
    gave. *)
Lemma add_indicators_ok (ta : ta_lib) (df : list bar) (rows : list row) :
  add_indicators ta df = Ok rows ->
  exists hb60 lb60 hb105 lb105 hb150 lb150 rsi20 willr28 pdi6 ndi6 pdi20
         ndi20 ma8,
    rows = indicator_rows df hb60 lb60 hb105 lb105 hb150 lb150 rsi20
             willr28 pdi6 ndi6 pdi20 ndi20 ma8.
Proof.
  unfold add_indicators, ta_call. library_calls discriminate.
  intros [= <-]. eauto 20.
Qed.

Lemma add_indicators_exn (ta : ta_lib) (df : list bar) (e : exn) :
  add_indicators ta df = Raise e -> e = ValueError.
Proof.
  unfold add_indicators, ta_call.
  library_calls ltac:(intros [= <-]; reflexivity). discriminate.
Qed.

Lemma add_indicators_bars (ta : ta_lib) (df : list bar) (rows : list row) :
  add_indicators ta df = Ok rows -> map r_bar rows = df.
Proof.
  intros H. apply add_indicators_ok in H.
  destruct H as (hb60 & lb60 & hb105 & lb105 & hb150 & lb150 & rsi20 &
                 willr28 & pdi6 & ndi6 & pdi20 & ndi20 & ma8 & ->).
  apply indicator_rows_bars.
Qed.

(** A loop over instruments that all get through returns, having added
    one frame per instrument with data; the bars of the added frames are
    the fetched ones, in list order. *)
Lemma loop_frames_returns (ta : ta_lib)
    (f : string -> result (option (list bar))) (stocks : list string) :
  (forall s, In s stocks ->
     exists d, f s = Ok d /\
               forall bars, d = Some bars ->
                            exists frame, add_indicators ta bars = Ok frame) ->
  forall frames,
    exists more,
      loop_frames ta f stocks frames = Ok (frames ++ more) /\
      map r_bar (concat more) = fetched_bars f stocks /\
      (more = [] <-> forall s, In s stocks -> f s = Ok None).
Proof.
  induction stocks as [|s stocks IH]; intros Hok frames; simpl.
  - exists []. rewrite app_nil_r. repeat split; auto. intros _ s [].
  - assert (Hok' : forall s0, In s0 stocks ->
                     exists d, f s0 = Ok d /\
                       forall bars, d = Some bars ->
                         exists frame, add_indicators ta bars = Ok frame)
      by (intros; apply Hok; right; assumption).
    destruct (Hok s (or_introl eq_refl)) as (d & Hd & Hind). rewrite Hd.
    destruct d as [bars|].
    + destruct (Hind bars eq_refl) as [frame Hframe]. rewrite Hframe.
      destruct (IH Hok' (frames ++ [frame])) as (more & Hrun & Hbars & _).
      exists (frame :: more). rewrite <- app_assoc in Hrun.
      split; [ exact Hrun | ]. split.
      * simpl. rewrite map_app, Hbars, (add_indicators_bars _ _ _ Hframe).
        reflexivity.
      * split; [ discriminate | ].
        intros Hnone. specialize (Hnone s (or_introl eq_refl)). congruence.
    + destruct (IH Hok' frames) as (more & Hrun & Hbars & Hnone).
      exists more. split; [ exact Hrun | ]. split; [ exact Hbars | ].
      rewrite Hnone. split.
      * intros H s0 [<- | Hin]; auto.
      * intros H s0 Hin. apply H. right. exact Hin.
Qed.

Lemma fetched_bars_skip (f : string -> result (option (list bar)))
    (symbol : string) (before after : list string) :
  f symbol = Ok None ->
  fetched_bars f (before ++ symbol :: after) = fetched_bars f (before ++ after).
Proof.
  intros Hf. unfold fetched_bars. rewrite !flat_map_app. simpl.
  rewrite Hf. reflexivity.
Qed.

(** C7. For every batch, an instrument whose download comes back empty
    (which is how the download reports a failed retrieval) makes
    [fetch_data] return [None] without raising, and the batch goes on as
    if the instrument were not in the list: the loop continues with the
    next instrument and the frames collected so far, and the concatenated
    frame and the dashboard are those of the batch without it.  When the
    loop gets through the other instruments, the run does not raise on
    account of the empty one: the concatenated frame holds exactly the
    bars fetched for the others, in list order (the run stops with "No
    data fetched" only when no instrument at all has data). *)
Theorem empty_fetch_is_dropped (download : string -> raw_frame)
    (ta : ta_lib) (before after : list string) (symbol : string)
    (w : world) :
  df_empty (download symbol) = true ->
  cache w !! symbol = None ->
  fst (fetch_data download symbol w) = Ok None /\
  fst (main_pipeline download ta (before ++ symbol :: after) w)
  = fst (main_pipeline download ta (before ++ after) w) /\
  fst (run_script download ta (before ++ symbol :: after) w)
  = fst (run_script download ta (before ++ after) w) /\
  (forall frames,
     main_loop download ta (symbol :: after) frames w
     = main_loop download ta after frames
         {| cache := <[symbol := None]> (cache w);
            requests := requests w ++ [symbol] |}) /\
  ((forall s, In s (before ++ after) -> instrument_ok download ta w s) ->
   match fst (main_pipeline download ta (before ++ symbol :: after) w) with
   | Ok df =>
     map r_bar df = fetched_bars (fetch_result download w) (before ++ after)
   | Raise e =>
     e = StopException /\
     forall s, In s (before ++ after) -> fetch_result download w s = Ok None
   end).
Proof.
  intros Hempty Hfresh.
  assert (Hres : fetch_result download w symbol = Ok None).
  { unfold fetch_result, fetch_data_of. rewrite Hfresh, Hempty. reflexivity. }
  assert (Hpipe : fst (main_pipeline download ta (before ++ symbol :: after) w)
                  = fst (main_pipeline download ta (before ++ after) w)).
  { rewrite !main_pipeline_frames, (loop_frames_skip _ _ _ _ _ Hres).
    reflexivity. }
  split; [ | split; [ exact Hpipe | split; [ | split ] ] ].
  - rewrite (fetch_data_empty _ _ _ Hempty Hfresh). reflexivity.
  - rewrite !run_script_table, Hpipe. reflexivity.
  - intros frames. simpl.
    rewrite (fetch_data_empty _ _ _ Hempty Hfresh). reflexivity.
  - intros Hok. rewrite Hpipe, main_pipeline_frames.
    destruct (loop_frames_returns ta (fetch_result download w)
                (before ++ after) Hok []) as (more & -> & Hbars & Hnone).
    simpl. destruct more as [|fr more].
    + split; [ reflexivity | ]. apply Hnone. reflexivity.
    + exact Hbars.
Qed.

(** Five instruments of which two come back empty: the rows are those of
    the other three, two bars each. *)
Example five_instruments_two_empty :
  match fst (main_pipeline sample_download sample_ta sample_stocks
               fresh_world) with
  | Ok df => map (fun r => Stock (r_bar r)) df
  | Raise _ => []
  end
  = ["A.NS"; "A.NS"; "C.NS"; "C.NS"; "E.NS"; "E.NS"].
Proof. vm_compute. reflexivity. Qed.

Lemma empty_fetch_is_dropped_witness :
  fst (main_pipeline sample_download sample_ta
         ["A.NS"; "B.NS"; "C.NS"; "D.NS"; "E.NS"] fresh_world)
  = fst (main_pipeline sample_download sample_ta
           ["A.NS"; "C.NS"; "E.NS"] fresh_world) /\
  exists df,
    fst (main_pipeline sample_download sample_ta
           ["A.NS"; "B.NS"; "C.NS"; "D.NS"; "E.NS"] fresh_world) = Ok df /\
    map (fun r => Stock (r_bar r)) df
    = ["A.NS"; "A.NS"; "C.NS"; "C.NS"; "E.NS"; "E.NS"].
Proof.
  destruct (empty_fetch_is_dropped sample_download sample_ta
              ["A.NS"] ["C.NS"; "D.NS"; "E.NS"] "B.NS" fresh_world
              eq_refl eq_refl) as (_ & H1 & _ & _ & Hrows).
  destruct (empty_fetch_is_dropped sample_download sample_ta
              ["A.NS"; "C.NS"] ["E.NS"] "D.NS" fresh_world
              eq_refl eq_refl) as (_ & H2 & _).
  split; [ exact (eq_trans H1 H2) | ].
  assert (Hok : forall s, In s (["A.NS"] ++ ["C.NS"; "D.NS"; "E.NS"]) ->
                          instrument_ok sample_download sample_ta
                            fresh_world s).
  { intros s [<- | [<- | [<- | [<- | []]]]];
      (eexists; split; [ reflexivity | ]);
      intros bars Hb; try discriminate Hb;
      injection Hb as <-; eexists; reflexivity. }
  specialize (Hrows Hok). simpl app in Hrows.
  destruct (fst (main_pipeline sample_download sample_ta
                   ["A.NS"; "B.NS"; "C.NS"; "D.NS"; "E.NS"] fresh_world))
    as [df|e].
  - exists df. split; [ reflexivity | ].
    rewrite <- (map_map r_bar Stock), Hrows. reflexivity.
  - destruct Hrows as [_ Hnone].
    specialize (Hnone "A.NS" (or_introl eq_refl)). discriminate.
Defined.

(* ===================================================================== *)
(** ** Columns found by label *)
(* ===================================================================== *)

Lemma positions_length (col : string) (labels : list string) (i : nat) :
  length (positions col labels i) = occurrences col labels.
Proof.
  unfold occurrences. revert i.
  induction labels as [|l labels IH]; intros i; simpl; [ reflexivity | ].
  rewrite (String.eqb_sym col l).
  destruct (String.eqb l col); simpl; rewrite IH; reflexivity.
Qed.

Lemma positions_nth (col : string) (labels : list string) (i p : nat) :
  In p (positions col labels i) <->
  (i <= p)%nat /\ nth_error labels (p - i) = Some col.
Proof.
  revert i. induction labels as [|l labels IH]; intros i; simpl.
  - split; [ tauto | ]. intros [_ H]. destruct (p - i)%nat; discriminate.
  - destruct (String.eqb_spec l col) as [-> | Hne]; simpl; rewrite (IH (S i)).
    + split.
      * intros [<- | [Hle Hn]].
        -- split; [ lia | ]. replace (i - i)%nat with O by lia. reflexivity.
        -- split; [ lia | ].
           replace (p - i)%nat with (S (p - S i)) by lia. exact Hn.
      * intros [Hle Hn]. destruct (Nat.eq_dec i p) as [-> | Hneq]; [ auto | ].
        right. split; [ lia | ].
        replace (p - i)%nat with (S (p - S i)) in Hn by lia. exact Hn.
    + split.
      * intros [Hle Hn]. split; [ lia | ].
        replace (p - i)%nat with (S (p - S i)) by lia. exact Hn.
      * intros [Hle Hn]. destruct (Nat.eq_dec i p) as [-> | Hneq].
        -- replace (p - p)%nat with O in Hn by lia. simpl in Hn. congruence.
        -- split; [ lia | ].
           replace (p - i)%nat with (S (p - S i)) in Hn by lia. exact Hn.
Qed.

(** [df[col]] by the number of columns that carry the label. *)
Lemma getitem_cases (labels : list string) (col : string) :
  match occurrences col labels with
  | O => getitem labels col = Raise KeyError
  | S O => exists p, getitem labels col = Ok p /\
                     forall q, nth_error labels q = Some col <-> q = p
  | _ => getitem labels col = Raise TypeError
  end.
Proof.
  unfold getitem. rewrite <- (positions_length col labels 0).
  destruct (positions col labels 0) as [|p [|q ps]] eqn:Hp; simpl;
    try reflexivity.
  exists p. split; [ reflexivity | ]. intros q.
  pose proof (positions_nth col labels 0 q) as Hq. rewrite Hp in Hq.
  simpl in Hq. rewrite Nat.sub_0_r in Hq.
  split.
  - intros Hn. destruct Hq as [_ Hq]. destruct Hq as [<- | []];
      [ split; [ lia | exact Hn ] | reflexivity ].
  - intros ->. apply Hq. left. reflexivity.
Qed.

Lemma df_empty_false (df : raw_frame) :
  df_empty df = false -> rf_rows df <> [].
Proof.
  unfold df_empty. destruct (rf_rows df); [ discriminate | discriminate ].
Qed.

(** A label that occurs once on the flat axis is found by [df[col]] at the
    one position that bears it. *)
Lemma getitem_once (labels : list string) (col : string) :
  occurrences col labels = 1%nat ->
  exists p, getitem labels col = Ok p /\
            forall q, nth_error labels q = Some col <-> q = p.
Proof.
  intros Hocc. pose proof (getitem_cases labels col) as H.
  rewrite Hocc in H. exact H.
Qed.

(** With one column per label, [fetch_data] builds each bar from the
    cells at the five positions [df[col]] finds. *)
Lemma fetch_data_of_positions (symbol : string) (df : raw_frame) :
  df_empty df = false ->
  (forall col, In col ohlcv ->
     occurrences col (flatten_columns (rf_columns df)) = 1%nat) ->
  exists o h l c v,
    (forall col p,
       In col ohlcv ->
       nth_error (flatten_columns (rf_columns df)) p = Some col ->
       p = if String.eqb col "Open" then o
           else if String.eqb col "High" then h
           else if String.eqb col "Low" then l
           else if String.eqb col "Close" then c
           else v) /\
    fetch_data_of symbol df
    = Ok (Some (map (fun row : timestamp * list spec_float =>
                       {| Datetime := fst row;
                          Open := cell (snd row) o;
                          High := cell (snd row) h;
                          Low := cell (snd row) l;
                          Close := cell (snd row) c;
                          Volume := cell (snd row) v;
                          Stock := symbol |})
                    (rf_rows df))).
Proof.
  intros Hne Hocc. unfold fetch_data_of. rewrite Hne.
  set (labels := flatten_columns (rf_columns df)) in *.
  destruct (getitem_once labels "Open") as (o & -> & Ho);
    [ apply Hocc; simpl; tauto | ].
  destruct (getitem_once labels "High") as (h & -> & Hh);
    [ apply Hocc; simpl; tauto | ].
  destruct (getitem_once labels "Low") as (l & -> & Hl);
    [ apply Hocc; simpl; tauto | ].
  destruct (getitem_once labels "Close") as (c & -> & Hc);
    [ apply Hocc; simpl; tauto | ].
  destruct (getitem_once labels "Volume") as (v & -> & Hv);
    [ apply Hocc; simpl; tauto | ].
  exists o, h, l, c, v. split; [ | reflexivity ].
  intros col p Hin Hp.
  destruct Hin as [<- | [<- | [<- | [<- | [<- | []]]]]]; simpl;
    [ apply Ho | apply Hh | apply Hl | apply Hc | apply Hv ]; exact Hp.
Qed.

(** Bars built from those positions hold, field by field, the cell of the
    column that bears the field's name. *)
Lemma bars_by_label (symbol : string) (labels : list string)
    (o h l c v : nat) (rows : list (timestamp * list spec_float)) :
  (forall col p,
     In col ohlcv -> nth_error labels p = Some col ->
     p = if String.eqb col "Open" then o
         else if String.eqb col "High" then h
         else if String.eqb col "Low" then l
         else if String.eqb col "Close" then c
         else v) ->
  Forall2 (fun (row : timestamp * list spec_float) (b : bar) =>
             Datetime b = fst row /\ Stock b = symbol /\
             forall col p,
               In col ohlcv -> nth_error labels p = Some col ->
               ohlcv_field col b = cell (snd row) p)
    rows
    (map (fun row : timestamp * list spec_float =>
            {| Datetime := fst row;
               Open := cell (snd row) o;
               High := cell (snd row) h;
               Low := cell (snd row) l;
               Close := cell (snd row) c;
               Volume := cell (snd row) v;
               Stock := symbol |})
         rows).
Proof.
  intros Hpos. induction rows as [|row rows IH]; simpl; constructor;
    [ | exact IH ].
  simpl. split; [ reflexivity | split; [ reflexivity | ] ].
  intros col p Hin Hp. rewrite (Hpos col p Hin Hp). unfold ohlcv_field.
  destruct Hin as [<- | [<- | [<- | [<- | [<- | []]]]]]; reflexivity.
Qed.

(* ===================================================================== *)
(** ** Column normalisation *)
(* ===================================================================== *)

Lemma df_empty_single_level (df : raw_frame) :
  df_empty (single_level df) = df_empty df.
Proof.
  unfold df_empty, single_level; simpl.
  destruct (rf_columns df) as [l|t]; simpl; [ reflexivity | ].
  unfold get_level_values_0. rewrite length_map. reflexivity.
Qed.

Lemma fetch_data_of_single_level (symbol : string) (df : raw_frame) :
  fetch_data_of symbol df = fetch_data_of symbol (single_level df).
Proof.
  unfold fetch_data_of. rewrite df_empty_single_level. reflexivity.
Qed.

Lemma main_loop_ext (download download' : string -> raw_frame)
    (ta : ta_lib) (stocks : list string) :
  (forall s, fetch_data_of s (download s) = fetch_data_of s (download' s)) ->
  forall frames w,
    main_loop download ta stocks frames w
    = main_loop download' ta stocks frames w.
Proof.
  intros Hd. induction stocks as [|s stocks IH]; intros frames w; simpl; auto.
  assert (Hf : fetch_data download s w = fetch_data download' s w)
    by (unfold fetch_data; rewrite Hd; reflexivity).
  rewrite <- Hf.
  destruct (fetch_data download s w) as [[[data|]|e] w1]; auto.
  destruct (add_indicators ta data); auto.
Qed.

(** C8. Whatever column axis the download returns, [fetch_data] works on
    the flat axis of level-0 labels: it returns what it returns on the
    single-level frame of the same data, a two-level axis of
    (field, ticker) tuples becomes the axis of field names, and the whole
    dashboard (indicator columns included) is the one computed from
    single-level downloads.  On a two-level axis that has each of Open,
    High, Low, Close and Volume once at its first level, [fetch_data]
    returns a bar per row whose fields hold the cells of the columns with
    those field names, whatever the second level says and wherever the
    columns sit; a row of yfinance's (Adj Close, Close, High, Low, Open,
    Volume) layout is read accordingly. *)
Theorem multiindex_is_flattened (download : string -> raw_frame)
    (ta : ta_lib) (stocks : list string) (w : world) :
  (forall symbol df,
     fetch_data_of symbol df = fetch_data_of symbol (single_level df)) /\
  (forall fields ticker rows,
     single_level
       {| rf_columns := MultiIndex (map (fun f => (f, ticker)) fields);
          rf_rows := rows |}
     = {| rf_columns := Index fields; rf_rows := rows |}) /\
  main_pipeline download ta stocks w
  = main_pipeline (fun s => single_level (download s)) ta stocks w /\
  run_script download ta stocks w
  = run_script (fun s => single_level (download s)) ta stocks w /\
  (forall symbol tuples rows,
     fetch_data_of symbol
       {| rf_columns := MultiIndex tuples; rf_rows := rows |}
     = fetch_data_of symbol
         {| rf_columns := Index (map fst tuples); rf_rows := rows |}) /\
  (forall symbol tuples rows,
     rows <> [] ->
     (forall col, In col ohlcv ->
                  occurrences col (map fst tuples) = 1%nat) ->
     exists bars,
       fetch_data_of symbol
         {| rf_columns := MultiIndex tuples; rf_rows := rows |}
       = Ok (Some bars) /\
       Forall2 (fun (row : timestamp * list spec_float) (b : bar) =>
                  Datetime b = fst row /\ Stock b = symbol /\
                  forall col ticker p,
                    In col ohlcv ->
                    nth_error tuples p = Some (col, ticker) ->
                    ohlcv_field col b = cell (snd row) p)
               rows bars) /\
  (forall t,
     fetch_data_of "A.NS"
       {| rf_columns := yf_columns "A.NS";
          rf_rows := [(t, numbered_cells)] |}
     = Ok (Some [ {| Datetime := t;
                     Open := F64.of_Z 5; High := F64.of_Z 3;
                     Low := F64.of_Z 4; Close := F64.of_Z 2;
                     Volume := F64.of_Z 6; Stock := "A.NS" |} ])).
Proof.
  split; [ intros; apply fetch_data_of_single_level | ].
  split.
  { intros fields ticker rows. unfold single_level; simpl.
    unfold get_level_values_0. rewrite map_map; simpl. rewrite map_id.
    reflexivity. }
  assert (Hpipe : main_pipeline download ta stocks w
                  = main_pipeline (fun s => single_level (download s))
                      ta stocks w).
  { unfold main_pipeline.
    rewrite (main_loop_ext download (fun s => single_level (download s)));
      [ reflexivity | ].
    intros s. apply fetch_data_of_single_level. }
  split; [ exact Hpipe | ].
  split; [ unfold run_script; rewrite Hpipe; reflexivity | ].
  split; [ intros symbol tuples rows; apply fetch_data_of_single_level | ].
  split; [ | intros t; reflexivity ].
  intros symbol tuples rows Hrows Hocc.
  set (df := {| rf_columns := MultiIndex tuples; rf_rows := rows |}).
  assert (Hne : df_empty df = false).
  { unfold df_empty; simpl. destruct rows; [ congruence | ].
    destruct tuples; [ | reflexivity ].
    specialize (Hocc "Open" (or_introl eq_refl)). discriminate. }
  destruct (fetch_data_of_positions symbol df Hne Hocc)
    as (o & h & l & c & v & Hpos & Hf).
  eexists. split; [ exact Hf | ].
  pose proof (bars_by_label symbol (map fst tuples) o h l c v rows Hpos)
    as Hbars.
  revert Hbars. apply List.Forall2_impl.
  intros row b (Hd & Hs & Hcells).
  split; [ exact Hd | split; [ exact Hs | ] ].
  intros col ticker p Hin Hp. apply Hcells; [ exact Hin | ].
  apply (map_nth_error fst) in Hp. exact Hp.
Qed.

(** A one-ticker download with yfinance's two-level columns is read by
    field name. *)
Example fetch_sample_bars :
  flatten_columns (yf_columns "A.NS")
  = ["Adj Close"; "Close"; "High"; "Low"; "Open"; "Volume"] /\
  fetch_data_of "A.NS" (sample_download "A.NS")
  = Ok (Some [ sample_bar "A.NS" (ts_at 19002 10 0 0 ist);
               sample_bar "A.NS" (ts_at 19002 10 5 0 ist) ]).
Proof. split; reflexivity. Qed.

(* ===================================================================== *)
(** ** The cache across refresh cycles *)
(* ===================================================================== *)

(** When the loop has run to its end, every symbol of the list is in the
    cache, and nothing that was cached has changed. *)
Lemma main_loop_caches (download : string -> raw_frame) (ta : ta_lib)
    (stocks : list string) :
  forall frames w frames1 w1,
    main_loop download ta stocks frames w = (Ok frames1, w1) ->
    (forall x data, cache w !! x = Some data -> cache w1 !! x = Some data) /\
    (forall s, In s stocks -> is_Some (cache w1 !! s)).
Proof.
  induction stocks as [|s stocks IH]; intros frames w frames1 w1; simpl.
  - intros [= _ <-]. split; [ auto | intros s [] ].
  - destruct (fetch_data download s w) as [r w'] eqn:Hf.
    destruct (fetch_data_step _ _ _ _ _ Hf) as (_ & _ & Hkeep & Hput).
    destruct r as [[data|]|e];
      [ destruct (add_indicators ta data) as [fr|e]; [ | discriminate ]
      | | discriminate ];
      intros Hloop;
      destruct (IH _ _ _ _ Hloop) as [Hkeep1 Hall];
      (split; [ intros x d Hx; apply Hkeep1, Hkeep, Hx | ]);
      intros s0 [<- | Hin]; auto;
      eexists; apply Hkeep1, Hput; reflexivity.
Qed.

(** With every symbol of the list cached, the loop downloads nothing and
    leaves the state as it is. *)
Lemma main_loop_all_hits (download : string -> raw_frame) (ta : ta_lib)
    (stocks : list string) (w : world) :
  (forall s, In s stocks -> is_Some (cache w !! s)) ->
  forall frames, snd (main_loop download ta stocks frames w) = w.
Proof.
  induction stocks as [|s stocks IH]; intros Hall frames; simpl; auto.
  destruct (Hall s (or_introl eq_refl)) as [data Hs].
  rewrite (fetch_data_hit download s w data Hs).
  destruct data as [d|];
    [ destruct (add_indicators ta d); [ | reflexivity ] | ];
    apply IH; intros; apply Hall; right; assumption.
Qed.

Lemma main_loop_rerun (download download' : string -> raw_frame)
    (ta : ta_lib) (stocks : list string) (frames frames1 : list (list row))
    (w w1 : world) :
  main_loop download ta stocks frames w = (Ok frames1, w1) ->
  main_loop download' ta stocks frames w1 = (Ok frames1, w1).
Proof.
  intros Hloop.
  destruct (main_loop_caches _ _ _ _ _ _ _ Hloop) as [_ Hall].
  assert (Hfst : fst (main_loop download' ta stocks frames w1) = Ok frames1).
  { pose proof (main_loop_frames download ta stocks frames w) as H1.
    rewrite Hloop in H1; simpl in H1. rewrite H1, main_loop_frames.
    apply loop_frames_ext. intros s Hin.
    destruct (Hall s Hin) as [data Hs].
    clear H1. unfold fetch_result at 1. rewrite Hs.
    revert Hloop Hs. clear. revert frames w.
    induction stocks as [|s0 stocks IH]; intros frames w; simpl.
    - intros [= _ <-] Hs. unfold fetch_result. rewrite Hs. reflexivity.
    - destruct (fetch_data download s0 w) as [r w'] eqn:Hf.
      destruct (fetch_data_step _ _ _ _ _ Hf) as (_ & Hsame & _ & _).
      destruct r as [[d|]|e];
        [ destruct (add_indicators ta d); [ | discriminate ]
        | | discriminate ];
        intros Hloop Hs; rewrite <- Hsame; eapply IH; eassumption. }
  pose proof (main_loop_all_hits download' ta stocks w1 Hall frames) as Hsnd.
  destruct (main_loop download' ta stocks frames w1) as [r w2].
  simpl in Hfst, Hsnd. congruence.
Qed.

(** C9 as the code has it.  Once [fetch_data] has returned for a symbol,
    a further call with that symbol returns the cached value and issues
    no download; the cache is looked up by the symbol alone; and the
    cache is not emptied when a new refresh cycle starts: a cycle that
    follows a completed one over the same list downloads nothing and
    shows the same dashboard, whatever the remote source would return by
    then. *)
Theorem cache_outlives_cycle (download download' : string -> raw_frame)
    (ta : ta_lib) (stocks : list string) (w : world) :
  (forall symbol data w1,
     fetch_data download symbol w = (Ok data, w1) ->
     fetch_data download' symbol w1 = (Ok data, w1)) /\
  (forall symbol data,
     cache w !! symbol = Some data ->
     fetch_data download' symbol w = (Ok data, w)) /\
  (forall d w1,
     run_script download ta stocks w = (Ok d, w1) ->
     run_script download' ta stocks w1 = (Ok d, w1) /\
     requests (snd (run_script download' ta stocks w1)) = requests w1).
Proof.
  split; [ | split ].
  - intros symbol data w1 Hf.
    destruct (fetch_data_step _ _ _ _ _ Hf) as (_ & _ & _ & Hput).
    apply fetch_data_hit, Hput. reflexivity.
  - intros symbol data. apply fetch_data_hit.
  - intros d w1. unfold run_script, main_pipeline.
    destruct (main_loop download ta stocks [] w) as [[frames|e] w']
      eqn:Hloop; [ | discriminate ].
    destruct frames as [|fr frames]; [ discriminate | ].
    intros [= <- <-].
    rewrite (main_loop_rerun download download' _ _ _ _ _ _ Hloop).
    split; reflexivity.
Qed.

Lemma cache_outlives_cycle_witness :
  exists (d : dashboard) (w1 : world),
    run_script sample_download sample_ta sample_stocks fresh_world
    = (Ok d, w1) /\
    run_script (fun _ => {| rf_columns := Index []; rf_rows := [] |})
      sample_ta sample_stocks w1 = (Ok d, w1) /\
    requests w1 = sample_stocks.
Proof.
  destruct (run_script sample_download sample_ta sample_stocks fresh_world)
    as [[d|e] w1] eqn:Hrun; [ | vm_compute in Hrun; discriminate ].
  exists d, w1. split; [ reflexivity | ].
  destruct (cache_outlives_cycle sample_download
              (fun _ => {| rf_columns := Index []; rf_rows := [] |})
              sample_ta sample_stocks fresh_world) as (_ & _ & Hnext).
  split; [ apply (Hnext d w1 Hrun) | ].
  vm_compute in Hrun. injection Hrun as _ <-. reflexivity.
Defined.

(** C9 as stated fails: the cache is not invalidated when a cycle starts.
    After one run over A.NS, a second run downloads nothing, while a run
    from the emptied cache would download A.NS again. *)
Lemma cache_not_invalidated :
  ~ cache_invalidated_each_cycle sample_download sample_ta ["A.NS"].
Proof.
  intros Hinv.
  specialize (Hinv (snd (run_script sample_download sample_ta ["A.NS"]
                           fresh_world))).
  apply (f_equal (fun p => requests (snd p))) in Hinv.
  vm_compute in Hinv. discriminate.
Qed.

(* ===================================================================== *)
(** ** The instrument list *)
(* ===================================================================== *)

Lemma seen_before_In (x : string) (seen : list string) :
  seen_before x seen = true <-> In x seen.
Proof.
  unfold seen_before. rewrite existsb_exists. split.
  - intros (y & Hy & Heq). apply String.eqb_eq in Heq. congruence.
  - intros Hin. exists x. split; [ exact Hin | apply String.eqb_refl ].
Qed.

Lemma unique_from_In (s seen : list string) (x : string) :
  In x (unique_from seen s) <-> In x s /\ ~ In x seen.
Proof.
  revert seen. induction s as [|y s IH]; intros seen; simpl; [ tauto | ].
  destruct (seen_before y seen) eqn:Hy.
  - apply seen_before_In in Hy. rewrite IH.
    split; [ tauto | ]. intros [[<- | Hin] Hno]; tauto.
  - assert (Hny : ~ In y seen).
    { intros H. apply seen_before_In in H. congruence. }
    simpl. rewrite IH. simpl.
    destruct (String.eqb_spec y x) as [-> | Hne]; [ tauto | ].
    split; [ tauto | ]. intros [[Heq | Hin] Hno]; [ tauto | ].
    right. split; [ exact Hin | ]. intros [Heq | Hs]; tauto.
Qed.

Lemma unique_from_NoDup (s seen : list string) :
  List.NoDup (unique_from seen s).
Proof.
  revert seen. induction s as [|y s IH]; intros seen; simpl;
    [ constructor | ].
  destruct (seen_before y seen); [ apply IH | ].
  constructor; [ | apply IH ].
  rewrite unique_from_In. simpl. tauto.
Qed.

(** Dropping the values already met before the scan or during it is the
    same. *)
Lemma unique_from_app (s acc seen : list string) :
  unique_from (acc ++ seen) s
  = unique_from acc (List.filter (fun y => negb (seen_before y seen)) s).
Proof.
  revert acc. induction s as [|y s IH]; intros acc; simpl; [ reflexivity | ].
  destruct (seen_before y seen) eqn:Hy; simpl.
  - assert (Hs : seen_before y (acc ++ seen) = true).
    { apply seen_before_In, in_or_app. right. apply seen_before_In, Hy. }
    rewrite Hs. apply IH.
  - destruct (seen_before y acc) eqn:Ha.
    + assert (Hs : seen_before y (acc ++ seen) = true).
      { apply seen_before_In, in_or_app. left. apply seen_before_In, Ha. }
      rewrite Hs. apply IH.
    + assert (Hs : seen_before y (acc ++ seen) = false).
      { destruct (seen_before y (acc ++ seen)) eqn:E; [ | reflexivity ].
        apply seen_before_In, in_app_or in E.
        destruct E as [E | E]; apply seen_before_In in E; congruence. }
      rewrite Hs. f_equal. apply (IH (y :: acc)).
Qed.

(** The first value stays first, and the rest is what [unique] makes of
    the later values other than it. *)
Lemma unique_cons (x : string) (s : list string) :
  unique (x :: s)
  = x :: unique (List.filter (fun y => negb (String.eqb y x)) s).
Proof.
  unfold unique at 1. simpl. f_equal.
  transitivity
    (unique_from [] (List.filter (fun y => negb (seen_before y [x])) s)).
  - exact (unique_from_app s [] [x]).
  - unfold unique. f_equal. apply filter_ext. intros y.
    unfold seen_before. simpl. rewrite orb_false_r. reflexivity.
Qed.

Lemma dropna_In (cells : list (option string)) (x : string) :
  In x (dropna cells) <-> In (Some x) cells.
Proof.
  induction cells as [|[y|] cells IH]; simpl; [ tauto | | ].
  - rewrite IH. split; intros [H | H]; auto; left; congruence.
  - rewrite IH. split; [ auto | ]. intros [H | H]; [ discriminate | auto ].
Qed.

(** X1. When the CSV has a Stock column, [load_stocks] returns its
    non-missing values without repetition, each value met in the column
    being in the list, in order of first appearance. *)
Theorem load_stocks_distinct (df : csv_frame) (stocks : list string) :
  load_stocks_of df = Ok stocks ->
  exists cells,
    csv_column "Stock" df = Some cells /\
    List.NoDup stocks /\
    (forall x, In x stocks <-> In (Some x) cells) /\
    (forall x rest, dropna cells = x :: rest ->
       stocks
       = x :: unique (List.filter (fun y => negb (String.eqb y x)) rest)).
Proof.
  unfold load_stocks_of.
  destruct (csv_column "Stock" df) as [cells|]; [ | discriminate ].
  intros [= <-]. exists cells. split; [ reflexivity | ].
  split; [ apply unique_from_NoDup | ].
  split.
  - intros x. unfold unique. rewrite unique_from_In, dropna_In. simpl. tauto.
  - intros x rest ->. apply unique_cons.
Qed.

Lemma load_stocks_distinct_witness :
  List.NoDup ["A.NS"; "C.NS"] /\
  (In "C.NS" ["A.NS"; "C.NS"] <->
   In (Some "C.NS") [Some "A.NS"; Some "C.NS"; None; Some "A.NS"]).
Proof.
  destruct (load_stocks_distinct sample_csv ["A.NS"; "C.NS"] eq_refl)
    as (cells & Hcol & Hnd & Hin & _).
  injection Hcol as <-. split; [ exact Hnd | apply Hin ].
Defined.

(** X2. Without a Stock column the script stops before anything else: it
    raises the stop exception and the server state (both caches, the
    downloads issued) is what it was. *)
Theorem missing_stock_column_halts (csv : csv_frame)
    (download : string -> raw_frame) (ta : ta_lib) (sv : server) :
  stocks_cache sv = None ->
  csv_column "Stock" csv = None ->
  app13 csv download ta sv = (Raise StopException, sv).
Proof.
  intros Hcache Hcol. unfold app13, load_stocks, load_stocks_of.
  rewrite Hcache, Hcol. reflexivity.
Qed.

Lemma missing_stock_column_halts_witness :
  app13 [("Symbol", [Some "A.NS"])] sample_download sample_ta fresh_server
  = (Raise StopException, fresh_server).
Proof.
  apply (missing_stock_column_halts [("Symbol", [Some "A.NS"])]
           sample_download sample_ta fresh_server);
    reflexivity.
Defined.

(* ===================================================================== *)
(** ** Reading the downloaded frame *)
(* ===================================================================== *)

(** X3. On a frame that is not empty and on which each of Open, High, Low,
    Close and Volume labels exactly one column (after flattening),
    [fetch_data] returns one bar per row, in row order: the bar carries
    the row's index timestamp and the symbol, and each of its five fields
    holds the cell of the column with that label.  The result is never an
    empty list. *)
Theorem fetch_reads_columns_by_label (symbol : string) (df : raw_frame) :
  df_empty df = false ->
  (forall col, In col ohlcv ->
     occurrences col (flatten_columns (rf_columns df)) = 1%nat) ->
  exists bars,
    fetch_data_of symbol df = Ok (Some bars) /\
    bars <> [] /\
    Forall2 (fun (row : timestamp * list spec_float) (b : bar) =>
               Datetime b = fst row /\ Stock b = symbol /\
               forall col p,
                 In col ohlcv ->
                 nth_error (flatten_columns (rf_columns df)) p = Some col ->
                 ohlcv_field col b = cell (snd row) p)
            (rf_rows df) bars.
Proof.
  intros Hne Hocc.
  destruct (fetch_data_of_positions symbol df Hne Hocc)
    as (o & h & l & c & v & Hpos & Hf).
  eexists. split; [ exact Hf | ].
  split.
  - apply df_empty_false in Hne.
    destruct (rf_rows df); [ congruence | discriminate ].
  - apply bars_by_label, Hpos.
Qed.

Lemma fetch_reads_columns_by_label_witness :
  exists bars,
    fetch_data_of "A.NS" (sample_download "A.NS") = Ok (Some bars) /\
    length bars = 2%nat.
Proof.
  destruct (fetch_reads_columns_by_label "A.NS" (sample_download "A.NS")
              eq_refl) as (bars & Hf & _ & Hrows).
  - intros col [<- | [<- | [<- | [<- | [<- | []]]]]]; reflexivity.
  - exists bars. split; [ exact Hf | ].
    apply Forall2_length in Hrows. symmetry. exact Hrows.
Defined.

(** X4. On a frame that is not empty, [fetch_data] raises as soon as one
    of the five labels does not label exactly one column: KeyError when a
    label is absent and none is repeated, TypeError when a label is
    repeated and none is absent; it never returns a frame then. *)
Theorem fetch_raises_on_bad_columns (symbol : string) (df : raw_frame)
    (col : string) :
  df_empty df = false ->
  In col ohlcv ->
  occurrences col (flatten_columns (rf_columns df)) <> 1%nat ->
  (exists e, fetch_data_of symbol df = Raise e /\
             (e = KeyError \/ e = TypeError)) /\
  ((forall c, In c ohlcv ->
      (occurrences c (flatten_columns (rf_columns df)) <= 1)%nat) ->
   fetch_data_of symbol df = Raise KeyError) /\
  ((forall c, In c ohlcv ->
      (1 <= occurrences c (flatten_columns (rf_columns df)))%nat) ->
   fetch_data_of symbol df = Raise TypeError).
Proof.
  intros Hne Hin Hocc. unfold fetch_data_of. rewrite Hne.
  set (labels := flatten_columns (rf_columns df)) in *.
  assert (Hcase : forall c,
            (occurrences c labels = 0%nat /\ getitem labels c = Raise KeyError)
            \/ (occurrences c labels = 1%nat /\ exists p, getitem labels c = Ok p)
            \/ ((2 <= occurrences c labels)%nat
                /\ getitem labels c = Raise TypeError)).
  { intros c. pose proof (getitem_cases labels c) as H.
    destruct (occurrences c labels) as [|[|n]];
      [ left; auto | right; left | right; right; split; [ lia | exact H ] ].
    destruct H as (p & Hp & _). eauto. }
  destruct (Hcase "Open") as [[Ho Eo] | [[Ho (po & Eo)] | [Ho Eo]]];
    destruct (Hcase "High") as [[Hh Eh] | [[Hh (ph & Eh)] | [Hh Eh]]];
    destruct (Hcase "Low") as [[Hl El] | [[Hl (pl & El)] | [Hl El]]];
    destruct (Hcase "Close") as [[Hc Ec] | [[Hc (pc & Ec)] | [Hc Ec]]];
    destruct (Hcase "Volume") as [[Hv Ev] | [[Hv (pv & Ev)] | [Hv Ev]]];
    rewrite ?Eo; cbn iota; rewrite ?Eh; cbn iota; rewrite ?El; cbn iota;
    rewrite ?Ec; cbn iota; rewrite ?Ev; cbn iota;
    try (exfalso;
         destruct Hin as [<- | [<- | [<- | [<- | [<- | []]]]]]; congruence);
    (split; [ eexists; split; [ reflexivity | tauto ] | ]);
    (split; intros Hall;
       pose proof (Hall "Open" ltac:(simpl; tauto));
       pose proof (Hall "High" ltac:(simpl; tauto));
       pose proof (Hall "Low" ltac:(simpl; tauto));
       pose proof (Hall "Close" ltac:(simpl; tauto));
       pose proof (Hall "Volume" ltac:(simpl; tauto));
       first [ reflexivity | exfalso; lia ]).
Qed.

Lemma fetch_raises_on_bad_columns_witness :
  fetch_data_of "C.NS" (broken_download "C.NS") = Raise KeyError.
Proof.
  destruct (fetch_raises_on_bad_columns "C.NS" (broken_download "C.NS")
              "Close" eq_refl) as (_ & Hkey & _).
  - simpl. tauto.
  - vm_compute. discriminate.
  - apply Hkey.
    intros c [<- | [<- | [<- | [<- | [<- | []]]]]]; vm_compute;
      repeat constructor.
Defined.

(* ===================================================================== *)
(** ** Bars kept by the indicator step *)
(* ===================================================================== *)


(* ===================================================================== *)
(** ** Downloads, exceptions and the cache *)
(* ===================================================================== *)

Lemma fetch_data_of_exn (symbol : string) (df : raw_frame) (e : exn) :
  fetch_data_of symbol df = Raise e -> e = KeyError \/ e = TypeError.
Proof.
  unfold fetch_data_of. destruct (df_empty df); [ discriminate | ].
  set (labels := flatten_columns (rf_columns df)).
  assert (Hg : forall c e0, getitem labels c = Raise e0 ->
                            e0 = KeyError \/ e0 = TypeError).
  { intros c e0. unfold getitem.
    destruct (positions c labels 0) as [|p [|q ps]]; intros [= <-]; auto. }
  destruct (getitem labels "Open") eqn:Eo; [ | intros [= <-]; eauto ].
  destruct (getitem labels "High") eqn:Eh; [ | intros [= <-]; eauto ].
  destruct (getitem labels "Low") eqn:El; [ | intros [= <-]; eauto ].
  destruct (getitem labels "Close") eqn:Ec; [ | intros [= <-]; eauto ].
  destruct (getitem labels "Volume") eqn:Ev; [ discriminate | ].
  intros [= <-]; eauto.
Qed.

Lemma fetch_data_of_tagged (symbol : string) (df : raw_frame)
    (bars : list bar) :
  fetch_data_of symbol df = Ok (Some bars) ->
  bars <> [] /\ Forall (fun b => Stock b = symbol) bars.
Proof.
  unfold fetch_data_of. destruct (df_empty df) eqn:Hne; [ discriminate | ].
  apply df_empty_false in Hne.
  destruct (getitem _ "Open"); [ | discriminate ].
  destruct (getitem _ "High"); [ | discriminate ].
  destruct (getitem _ "Low"); [ | discriminate ].
  destruct (getitem _ "Close"); [ | discriminate ].
  destruct (getitem _ "Volume"); [ | discriminate ].
  intros [= <-]. split.
  - destruct (rf_rows df); [ congruence | discriminate ].
  - apply List.Forall_forall. intros b Hb. apply in_map_iff in Hb.
    destruct Hb as (row & <- & _). reflexivity.
Qed.

(** A call of [fetch_data] that misses the cache. *)
Lemma fetch_data_miss (download : string -> raw_frame) (symbol : string)
    (w : world) :
  cache w !! symbol = None ->
  fetch_data download symbol w
  = (fetch_data_of symbol (download symbol),
     {| cache := match fetch_data_of symbol (download symbol) with
                 | Ok data => <[symbol := data]> (cache w)
                 | Raise _ => cache w
                 end;
        requests := requests w ++ [symbol] |}).
Proof.
  intros H. unfold fetch_data. rewrite H.
  destruct (fetch_data_of symbol (download symbol)); reflexivity.
Qed.

Lemma fetch_data_requests (download : string -> raw_frame) (symbol : string)
    (w w1 : world) (r : result (option (list bar))) :
  fetch_data download symbol w = (r, w1) ->
  forall x, In x (requests w1) -> In x (requests w) \/ x = symbol.
Proof.
  destruct (cache w !! symbol) as [data|] eqn:Hc.
  - rewrite (fetch_data_hit download symbol w data Hc).
    intros [= _ <-]. auto.
  - rewrite (fetch_data_miss download symbol w Hc).
    intros [= _ <-] x Hx. simpl in Hx. apply in_app_or in Hx.
    destruct Hx as [Hx | [<- | []]]; auto.
Qed.

Lemma main_loop_raises (download : string -> raw_frame) (ta : ta_lib)
    (before after : list string) (symbol : string) (e : exn) :
  forall frames w,
    (forall s, In s before -> instrument_ok download ta w s) ->
    fetch_result download w symbol = Raise e ->
    exists w1,
      main_loop download ta (before ++ symbol :: after) frames w
      = (Raise e, w1) /\
      cache w1 !! symbol = None /\
      In symbol (requests w1) /\
      (forall x, In x (requests w1) ->
                 In x (requests w) \/ In x before \/ x = symbol).
Proof.
  induction before as [|s before IH]; intros frames w Hok Hbad; simpl.
  - assert (Hc : cache w !! symbol = None).
    { unfold fetch_result in Hbad.
      destruct (cache w !! symbol); [ discriminate | reflexivity ]. }
    unfold fetch_result in Hbad. rewrite Hc in Hbad.
    rewrite (fetch_data_miss download symbol w Hc), Hbad.
    eexists. split; [ reflexivity | ]. simpl.
    split; [ exact Hc | ].
    split; [ apply in_or_app; right; left; reflexivity | ].
    intros x Hx. apply in_app_or in Hx.
    destruct Hx as [Hx | [<- | []]]; auto.
  - destruct (fetch_data download s w) as [r w'] eqn:Hf.
    destruct (fetch_data_step _ _ _ _ _ Hf) as (-> & Hsame & _ & _).
    pose proof (fetch_data_requests _ _ _ _ _ Hf) as Hreq.
    destruct (Hok s (or_introl eq_refl)) as (d & Hd & Hind). rewrite Hd.
    assert (Hok' : forall s0, In s0 before -> instrument_ok download ta w' s0).
    { intros s0 Hin. unfold instrument_ok. rewrite Hsame.
      apply Hok. right. exact Hin. }
    assert (Hbad' : fetch_result download w' symbol = Raise e)
      by (rewrite Hsame; exact Hbad).
    destruct d as [bars|];
      [ destruct (Hind bars eq_refl) as [frame ->];
        destruct (IH (frames ++ [frame]) w' Hok' Hbad')
          as (w1 & Hrun & Hc & Hin & Hsub)
      | destruct (IH frames w' Hok' Hbad') as (w1 & Hrun & Hc & Hin & Hsub) ];
      exists w1; (split; [ exact Hrun | ]);
      (split; [ exact Hc | ]); (split; [ exact Hin | ]);
      intros x Hx; destruct (Hsub x Hx) as [H | [H | H]]; auto;
      destruct (Hreq x H) as [H' | ->]; auto.
Qed.

(** X6. The script catches nothing: when the loop has got through the
    instruments before it ([fetch_data] and [add_indicators] returned for
    each) and [fetch_data] raises for an instrument (its frame lacks a
    column), the run ends there with that exception.  The instrument was
    downloaded but is not cached, so the next run downloads it again, and
    no instrument after it in the list is downloaded. *)
Theorem exception_aborts_batch (download : string -> raw_frame)
    (ta : ta_lib) (before after : list string) (symbol : string)
    (w : world) (e : exn) :
  (forall s, In s before -> instrument_ok download ta w s) ->
  fetch_result download w symbol = Raise e ->
  exists w1,
    run_script download ta (before ++ symbol :: after) w = (Raise e, w1) /\
    cache w1 !! symbol = None /\
    In symbol (requests w1) /\
    (forall x, In x (requests w1) ->
               In x (requests w) \/ In x before \/ x = symbol).
Proof.
  intros Hok Hbad.
  destruct (main_loop_raises download ta before after symbol e [] w Hok Hbad)
    as (w1 & Hrun & Hrest).
  exists w1. split; [ | exact Hrest ].
  unfold run_script, main_pipeline. rewrite Hrun. reflexivity.
Qed.

Lemma exception_aborts_batch_witness :
  exists w1,
    run_script broken_download sample_ta ["A.NS"; "C.NS"; "E.NS"] fresh_world
    = (Raise KeyError, w1) /\
    requests w1 = ["A.NS"; "C.NS"].
Proof.
  destruct (exception_aborts_batch broken_download sample_ta
              ["A.NS"] ["E.NS"] "C.NS" fresh_world KeyError)
    as (w1 & Hrun & _).
  - intros s [<- | []]. eexists. split; [ reflexivity | ].
    intros bars [= <-]. eexists. reflexivity.
  - reflexivity.
  - exists w1. split; [ exact Hrun | ].
    vm_compute in Hrun. injection Hrun as <-. reflexivity.
Defined.

(** The downloads of a loop that runs to its end. *)
Lemma main_loop_requests (download : string -> raw_frame) (ta : ta_lib)
    (stocks : list string) :
  forall frames w frames1 w1,
    main_loop download ta stocks frames w = (Ok frames1, w1) ->
    exists new,
      requests w1 = requests w ++ new /\
      List.NoDup new /\
      (forall s, In s new <-> In s stocks /\ cache w !! s = None).
Proof.
  induction stocks as [|s stocks IH]; intros frames w frames1 w1; simpl.
  - intros [= _ <-]. exists []. rewrite app_nil_r.
    split; [ reflexivity | split; [ constructor | ] ]. simpl. tauto.
  - destruct (cache w !! s) as [data|] eqn:Hc.
    + rewrite (fetch_data_hit download s w data Hc).
      intros Hloop.
      assert (Hrest : exists frames',
                 main_loop download ta stocks frames' w = (Ok frames1, w1)).
      { destruct data as [d|];
          [ destruct (add_indicators ta d); [ | discriminate ] | ]; eauto. }
      destruct Hrest as [frames' Hrest].
      destruct (IH _ _ _ _ Hrest) as (new & Hreq & Hnd & Hin).
      exists new. split; [ exact Hreq | split; [ exact Hnd | ] ].
      intros s0. rewrite Hin. split; [ tauto | ].
      intros [[<- | H] Hn]; [ congruence | tauto ].
    + rewrite (fetch_data_miss download s w Hc).
      destruct (fetch_data_of s (download s)) as [data|e];
        [ | discriminate ].
      intros Hloop.
      set (w' := {| cache := <[s := data]> (cache w);
                    requests := requests w ++ [s] |}) in *.
      assert (Hrest : exists frames',
                 main_loop download ta stocks frames' w' = (Ok frames1, w1)).
      { destruct data as [d|];
          [ destruct (add_indicators ta d); [ | discriminate ] | ]; eauto. }
      destruct Hrest as [frames' Hrest].
      destruct (IH _ _ _ _ Hrest) as (new & Hreq & Hnd & Hin).
      assert (Hw' : forall x, cache w' !! x = None <->
                              x <> s /\ cache w !! x = None).
      { intros x. unfold w'; simpl.
        destruct (decide (s = x)) as [<- | Hne].
        - rewrite lookup_insert_eq. split; [ discriminate | tauto ].
        - rewrite lookup_insert_ne by exact Hne.
          split; [ intros H; split; [ congruence | exact H ] | tauto ]. }
      exists (s :: new). split; [ | split ].
      * rewrite Hreq. unfold w'; simpl. rewrite <- app_assoc. reflexivity.
      * constructor; [ | exact Hnd ]. rewrite Hin, Hw'. tauto.
      * intros s0. simpl. rewrite Hin, Hw'.
        destruct (String.eqb_spec s s0) as [<- | Hne]; [ tauto | ].
        split; [ intros [H | H]; [ congruence | tauto ] | ].
        intros [[H | H] Hn]; [ congruence | right ].
        split; [ exact H | split; [ congruence | exact Hn ] ].
Qed.

(** X7. A run that gets through the loop (it ends with a dashboard or
    with the stop of "No data fetched") downloads exactly the instruments
    of the list that were not in the cache when it started, each once,
    and appends them to the downloads issued so far. *)
Theorem run_downloads_uncached_once (download : string -> raw_frame)
    (ta : ta_lib) (stocks : list string) (w w1 : world)
    (r : result dashboard) :
  run_script download ta stocks w = (r, w1) ->
  r <> Raise KeyError -> r <> Raise TypeError -> r <> Raise ValueError ->
  exists new,
    requests w1 = requests w ++ new /\
    List.NoDup new /\
    (forall s, In s new <-> In s stocks /\ cache w !! s = None).
Proof.
  unfold run_script, main_pipeline.
  destruct (main_loop download ta stocks [] w) as [[frames|e] w'] eqn:Hloop.
  - destruct (main_loop_requests _ _ _ _ _ _ _ Hloop) as (new & H).
    destruct frames; intros [= _ <-] _ _ _; exists new; exact H.
  - intros [= <- <-] Hk Ht Hv. exfalso.
    assert (He : e = KeyError \/ e = TypeError \/ e = ValueError).
    { clear Hk Ht Hv. revert Hloop. generalize (@nil (list row)) as frames.
      revert w. induction stocks as [|s stocks IH]; intros w frames; simpl;
        [ discriminate | ].
      destruct (fetch_data download s w) as [r0 w0] eqn:Hf.
      destruct (fetch_data_step _ _ _ _ _ Hf) as (-> & _).
      destruct (fetch_result download w s) as [[d|]|e0] eqn:Hr;
        [ destruct (add_indicators ta d) as [frame|e1] eqn:Hind;
            [ apply IH | intros [= <- _] ]
        | apply IH | ].
      - right. right. apply (add_indicators_exn _ _ _ Hind).
      - intros [= <- _]. unfold fetch_result in Hr.
        destruct (cache w !! s); [ discriminate | ].
        destruct (fetch_data_of_exn _ _ _ Hr); auto. }
    destruct He as [-> | [-> | ->]]; congruence.
Qed.

Lemma run_downloads_uncached_once_witness :
  exists new,
    requests (snd (run_script sample_download sample_ta
                     ["A.NS"; "B.NS"; "A.NS"]
                     (snd (run_script sample_download sample_ta ["B.NS"]
                             fresh_world))))
    = ["B.NS"] ++ new /\
    List.NoDup new /\ (In "A.NS" new /\ ~ In "B.NS" new).
Proof.
  set (w := snd (run_script sample_download sample_ta ["B.NS"] fresh_world)).
  destruct (run_script sample_download sample_ta ["A.NS"; "B.NS"; "A.NS"] w)
    as [r w1] eqn:Hrun.
  destruct (run_downloads_uncached_once _ _ _ _ _ _ Hrun)
    as (new & Hreq & Hnd & Hin).
  - vm_compute in Hrun. injection Hrun as <- _. discriminate.
  - vm_compute in Hrun. injection Hrun as <- _. discriminate.
  - vm_compute in Hrun. injection Hrun as <- _. discriminate.
  - exists new. split; [ exact Hreq | split; [ exact Hnd | ] ].
    split.
    + apply Hin. split; [ left; reflexivity | reflexivity ].
    + intros H. apply Hin in H. destruct H as [_ H].
      vm_compute in H. discriminate.
Defined.

(* ===================================================================== *)
(** ** When the pipeline stops, and what it hands on *)
(* ===================================================================== *)

Lemma fetch_result_exn (download : string -> raw_frame) (w : world)
    (symbol : string) (e : exn) :
  fetch_result download w symbol = Raise e -> e = KeyError \/ e = TypeError.
Proof.
  unfold fetch_result. destruct (cache w !! symbol); [ discriminate | ].
  apply fetch_data_of_exn.
Qed.

Lemma loop_frames_grows (ta : ta_lib)
    (f : string -> result (option (list bar))) (stocks : list string) :
  forall frames frames1,
    loop_frames ta f stocks frames = Ok frames1 ->
    exists more, frames1 = frames ++ more /\
      (more = [] <-> forall s, In s stocks -> f s = Ok None).
Proof.
  induction stocks as [|s stocks IH]; intros frames frames1; simpl.
  - intros [= <-]. exists []. rewrite app_nil_r.
    split; [ reflexivity | ]. split; [ intros _ s [] | reflexivity ].
  - destruct (f s) as [[data|]|e] eqn:Hf;
      [ destruct (add_indicators ta data) as [frame|e]; [ | discriminate ]
      | | discriminate ];
      intros Hl; destruct (IH _ _ Hl) as (more & -> & Hmore).
    + exists (frame :: more).
      rewrite <- app_assoc. split; [ reflexivity | ].
      split; [ discriminate | ].
      intros Hall. specialize (Hall s (or_introl eq_refl)). congruence.
    + exists more. split; [ reflexivity | ]. rewrite Hmore.
      split; [ intros H s0 [<- | Hin]; auto | intros H s0 Hin; auto ].
Qed.

(** X8. The run stops with "No data fetched" exactly when [fetch_data]
    returns [None] for every instrument of the list (an empty list
    included); a frame that makes [fetch_data] raise ends the run with
    that exception instead. *)
Theorem stops_iff_no_data (download : string -> raw_frame) (ta : ta_lib)
    (stocks : list string) (w : world) :
  fst (run_script download ta stocks w) = Raise StopException <->
  forall s, In s stocks -> fetch_result download w s = Ok None.
Proof.
  rewrite run_script_table, main_pipeline_frames.
  destruct (loop_frames ta (fetch_result download w) stocks [])
    as [frames|e] eqn:Hl.
  - destruct (loop_frames_grows _ _ _ _ _ Hl) as (more & -> & Hmore).
    simpl. rewrite <- Hmore.
    destruct more; [ tauto | ]. split; discriminate.
  - split; [ intros [= ->] | intros Hall ]; exfalso.
    + revert Hl. generalize (@nil (list row)).
      induction stocks as [|s stocks IH]; intros frames; simpl;
        [ discriminate | ].
      destruct (fetch_result download w s) as [[d|]|e0] eqn:Hr;
        [ destruct (add_indicators ta d) as [frame|e1] eqn:Hind;
            [ apply IH | intros [= ->] ]
        | apply IH | intros [= ->] ].
      * apply add_indicators_exn in Hind. discriminate.
      * apply fetch_result_exn in Hr. destruct Hr; discriminate.
    + revert Hl. generalize (@nil (list row)).
      induction stocks as [|s stocks IH]; intros frames; simpl;
        [ discriminate | ].
      rewrite (Hall s (or_introl eq_refl)). apply IH.
      intros s0 Hin. apply Hall. right. exact Hin.
Qed.

Lemma fetch_data_cache_wf (download : string -> raw_frame) (symbol : string)
    (w w1 : world) (r : result (option (list bar))) :
  cache_wf w -> fetch_data download symbol w = (r, w1) -> cache_wf w1.
Proof.
  intros Hwf. destruct (cache w !! symbol) as [data|] eqn:Hc.
  - rewrite (fetch_data_hit download symbol w data Hc).
    intros [= _ <-]. exact Hwf.
  - rewrite (fetch_data_miss download symbol w Hc).
    destruct (fetch_data_of symbol (download symbol)) as [data|e] eqn:Hf;
      intros [= _ <-]; [ | exact Hwf ].
    intros s bars. simpl.
    destruct (decide (symbol = s)) as [<- | Hne].
    + rewrite lookup_insert_eq. intros [= ->].
      apply (fetch_data_of_tagged _ _ _ Hf).
    + rewrite lookup_insert_ne by exact Hne. apply Hwf.
Qed.

Lemma main_loop_cache_wf (download : string -> raw_frame) (ta : ta_lib)
    (stocks : list string) :
  forall frames w r w1,
    cache_wf w -> main_loop download ta stocks frames w = (r, w1) ->
    cache_wf w1.
Proof.
  induction stocks as [|s stocks IH]; intros frames w r w1 Hwf; simpl.
  - intros [= _ <-]. exact Hwf.
  - destruct (fetch_data download s w) as [r0 w0] eqn:Hf.
    pose proof (fetch_data_cache_wf _ _ _ _ _ Hwf Hf) as Hwf0.
    destruct r0 as [[d|]|e];
      [ destruct (add_indicators ta d); [ apply IH | ] | apply IH | ]; auto;
      intros [= _ <-]; exact Hwf0.
Qed.

Lemma fetch_result_tagged (download : string -> raw_frame) (w : world)
    (symbol : string) (bars : list bar) :
  cache_wf w -> fetch_result download w symbol = Ok (Some bars) ->
  bars <> [] /\ Forall (fun b => Stock b = symbol) bars.
Proof.
  intros Hwf. unfold fetch_result.
  destruct (cache w !! symbol) as [data|] eqn:Hc.
  - intros [= ->]. apply (Hwf _ _ Hc).
  - apply fetch_data_of_tagged.
Qed.

Lemma loop_frames_tagged (ta : ta_lib)
    (f : string -> result (option (list bar))) (all stocks : list string) :
  (forall s bars, f s = Ok (Some bars) ->
                  bars <> [] /\ Forall (fun b => Stock b = s) bars) ->
  incl stocks all ->
  forall frames frames1,
    loop_frames ta f stocks frames = Ok frames1 ->
    Forall (fun fr : list row =>
              fr <> [] /\ forall r, In r fr -> In (Stock (r_bar r)) all)
           frames ->
    Forall (fun fr : list row =>
              fr <> [] /\ forall r, In r fr -> In (Stock (r_bar r)) all)
           frames1.
Proof.
  intros Hf. induction stocks as [|s stocks IH]; intros Hincl frames frames1;
    simpl.
  - intros [= <-] H. exact H.
  - assert (Hincl' : incl stocks all)
      by (intros x Hx; apply Hincl; right; exact Hx).
    destruct (f s) as [[data|]|e] eqn:Hs;
      [ destruct (add_indicators ta data) as [frame|e] eqn:Hind;
          [ | discriminate ]
      | | discriminate ];
      intros Hl Hfr; apply (IH Hincl' _ _ Hl); [ | exact Hfr ].
    apply Forall_app. split; [ exact Hfr | ].
    constructor; [ | constructor ].
    destruct (Hf s data Hs) as [Hne Htag].
    pose proof (add_indicators_bars ta data frame Hind) as Hbars.
    split.
    + intros Hnil. rewrite Hnil in Hbars. simpl in Hbars. congruence.
    + intros r Hr. apply Hincl. left.
      rewrite List.Forall_forall in Htag. symmetry. apply Htag.
      rewrite <- Hbars. apply in_map. exact Hr.
Qed.

(** X9. Starting from a cache filled by [fetch_data] alone (the empty
    cache of a new process, or what earlier runs left), a run that gets
    past the "No data fetched" check hands the signal composer at least
    one row, every row carries the symbol of an instrument of the list,
    and the cache it leaves is again of that kind. *)
Theorem pipeline_rows_nonempty_tagged (download : string -> raw_frame)
    (ta : ta_lib) (stocks : list string) (w w1 : world) (df : list row) :
  cache_wf w ->
  main_pipeline download ta stocks w = (Ok df, w1) ->
  df <> [] /\
  (forall r, In r df -> In (Stock (r_bar r)) stocks) /\
  cache_wf w1.
Proof.
  intros Hwf Hrun.
  assert (Hwf1 : cache_wf w1).
  { revert Hrun. unfold main_pipeline.
    destruct (main_loop download ta stocks [] w) as [r0 w0] eqn:Hloop.
    pose proof (main_loop_cache_wf _ _ _ _ _ _ _ Hwf Hloop) as H.
    destruct r0 as [[|fr frs]|e]; intros [= _ <-]; exact H. }
  pose proof (main_pipeline_frames download ta stocks w) as Hfr.
  rewrite Hrun in Hfr. simpl in Hfr.
  destruct (loop_frames ta (fetch_result download w) stocks [])
    as [[|fr frames]|e] eqn:Hl; try discriminate.
  injection Hfr as ->.
  assert (Hall : Forall (fun fr : list row =>
                   fr <> [] /\
                   forall r, In r fr -> In (Stock (r_bar r)) stocks)
                 (fr :: frames)).
  { apply (loop_frames_tagged ta (fetch_result download w) stocks stocks
             (fun s bars => fetch_result_tagged download w s bars Hwf)
             (incl_refl stocks) [] _ Hl).
    constructor. }
  split; [ | split; [ | exact Hwf1 ] ].
  - inversion Hall as [|? ? [Hne _] _]; subst. simpl.
    destruct fr; [ congruence | discriminate ].
  - intros r Hr. change (fr ++ concat frames) with (concat (fr :: frames)) in Hr.
    apply in_concat in Hr. destruct Hr as (fr0 & Hin & Hr).
    rewrite List.Forall_forall in Hall. apply (Hall fr0 Hin), Hr.
Qed.

Lemma fresh_world_wf : cache_wf fresh_world.
Proof. intros s bars H. simpl in H. rewrite lookup_empty in H. discriminate. Qed.

Lemma pipeline_rows_nonempty_tagged_witness :
  exists df w1,
    main_pipeline sample_download sample_ta sample_stocks fresh_world
    = (Ok df, w1) /\
    df <> [] /\ cache_wf w1.
Proof.
  destruct (main_pipeline sample_download sample_ta sample_stocks fresh_world)
    as [[df|e] w1] eqn:Hrun; [ | vm_compute in Hrun; discriminate ].
  destruct (pipeline_rows_nonempty_tagged _ _ _ _ _ _ fresh_world_wf Hrun)
    as (Hne & _ & Hwf).
  exists df, w1. split; [ reflexivity | split; assumption ].
Defined.

Lemma run_script_rerun (download download' : string -> raw_frame)
    (ta : ta_lib) (stocks : list string) (w w1 : world) (d : dashboard) :
  run_script download ta stocks w = (Ok d, w1) ->
  run_script download' ta stocks w1 = (Ok d, w1).
Proof.
  unfold run_script, main_pipeline.
  destruct (main_loop download ta stocks [] w) as [[frames|e] w'] eqn:Hloop;
    [ | discriminate ].
  destruct frames as [|fr frames]; [ discriminate | ].
  intros [= <- <-].
  rewrite (main_loop_rerun download download' _ _ _ _ _ _ Hloop).
  reflexivity.
Qed.

(** X10. Once a run of the whole script has shown a dashboard, every
    later run in the same server process shows that dashboard again and
    leaves the server state as it is: neither a changed instrument file
    nor new data at the remote source is looked at, since both
    [load_stocks] and [fetch_data] answer from their caches. *)
Theorem app_rerun_is_stale (csv csv' : csv_frame)
    (download download' : string -> raw_frame) (ta : ta_lib)
    (sv sv1 : server) (d : dashboard) :
  app13 csv download ta sv = (Ok d, sv1) ->
  app13 csv' download' ta sv1 = (Ok d, sv1) /\
  exists stocks, stocks_cache sv1 = Some stocks.
Proof.
  unfold app13.
  destruct (load_stocks csv sv) as [[stocks|e] sv0] eqn:Hload;
    [ | discriminate ].
  assert (Hc : stocks_cache sv0 = Some stocks).
  { revert Hload. unfold load_stocks.
    destruct (stocks_cache sv) as [l|] eqn:Hs.
    - intros [= <- <-]. exact Hs.
    - destruct (load_stocks_of csv); [ | discriminate ].
      intros [= <- <-]. reflexivity. }
  destruct (run_script download ta stocks (fetches sv0)) as [r w] eqn:Hrun.
  intros [= -> <-]. split; [ | eauto ].
  unfold load_stocks. simpl. rewrite Hc. cbn [fetches stocks_cache].
  rewrite (run_script_rerun download download' _ _ _ _ _ Hrun). reflexivity.
Qed.

Lemma app_rerun_is_stale_witness :
  exists d sv1,
    app13 sample_csv sample_download sample_ta fresh_server = (Ok d, sv1) /\
    app13 [] broken_download sample_ta sv1 = (Ok d, sv1).
Proof.
  destruct (app13 sample_csv sample_download sample_ta fresh_server)
    as [[d|e] sv1] eqn:Hrun; [ | vm_compute in Hrun; discriminate ].
  exists d, sv1. split; [ reflexivity | ].
  apply (app_rerun_is_stale sample_csv [] sample_download broken_download
           sample_ta fresh_server sv1 d Hrun).
Defined.

(* ===================================================================== *)
(** ** Missing prices, exits and the order of the views *)
(* ===================================================================== *)

Lemma add_indicators_widths (ta : ta_lib) (df : list bar)
    (rows : list row) (r : row) :
  add_indicators ta df = Ok rows ->
  In r rows ->
  exists h60 l60 h105 l105 h150 l150,
    BB60 r = band_width h60 l60 (Close (r_bar r)) /\
    BB105 r = band_width h105 l105 (Close (r_bar r)) /\
    BB150 r = band_width h150 l150 (Close (r_bar r)).
Proof.
  intros Hrun. apply add_indicators_ok in Hrun.
  destruct Hrun as (hb60 & lb60 & hb105 & lb105 & hb150 & lb150 & rsi20 &
                    willr28 & pdi6 & ndi6 & pdi20 & ndi20 & ma8 & ->).
  unfold indicator_rows. intros H. apply in_map_iff in H.
  destruct H as [[i b] [<- _]]. simpl. eauto 10.
Qed.

Lemma band_width_nan_close (hband lband : spec_float) :
  band_width hband lband F64.nan = F64.nan.
Proof.
  unfold band_width, F64.mul, F64.div.
  destruct (F64.sub hband lband) as [?|?| |? ? ?]; reflexivity.
Qed.

(** X11. A bar whose close price is missing gets missing band widths
    in the frame [add_indicators] returns, whatever series the indicator
    library gave, and neither entry rule fires on it. *)
Theorem missing_close_no_entry (ta : ta_lib) (df : list bar)
    (rows : list row) (r : row) :
  add_indicators ta df = Ok rows ->
  In r rows ->
  Close (r_bar r) = F64.nan ->
  BB60 r = F64.nan /\ BB105 r = F64.nan /\ BB150 r = F64.nan /\
  call_entry r = false /\ put_entry r = false /\ entry_time r = None.
Proof.
  intros Hrun Hin Hc.
  destruct (add_indicators_widths ta df rows r Hrun Hin)
    as (h60 & l60 & h105 & l105 & h150 & l150 & H60 & H105 & H150).
  rewrite Hc, band_width_nan_close in H60, H105, H150.
  destruct (entry_false_on_missing r (or_introl H60)) as [Hcall Hput].
  unfold entry_time. rewrite Hcall, Hput. repeat split; assumption.
Qed.

Lemma missing_close_no_entry_witness :
  exists rows r,
    add_indicators sample_ta
      [sample_bar "A.NS" (ts_at 19002 10 0 0 ist);
       gap_bar "A.NS" (ts_at 19002 10 5 0 ist)] = Ok rows /\
    In r rows /\
    Close (r_bar r) = F64.nan /\
    RSI20 r = F64.of_Z 70 /\
    BB60 r = F64.nan /\ call_entry r = false.
Proof.
  eexists. eexists. split; [ reflexivity | ].
  split; [ right; left; reflexivity | ].
  split; [ reflexivity | ]. split; [ reflexivity | ].
  destruct (missing_close_no_entry sample_ta
              [sample_bar "A.NS" (ts_at 19002 10 0 0 ist);
               gap_bar "A.NS" (ts_at 19002 10 5 0 ist)]
              _ _ eq_refl (or_intror (or_introl eq_refl)) eq_refl)
    as (H60 & _ & _ & Hcall & _).
  split; [ exact H60 | exact Hcall ].
Defined.

Lemma SFltb_SFleb (a b : spec_float) :
  SFltb a b = true -> SFleb a b = true.
Proof.
  unfold SFltb, SFleb. destruct (SFcompare a b) as [[]|];
    intros H; try discriminate; reflexivity.
Qed.

Lemma SFltb_asym (a b : spec_float) :
  SFltb a b = true -> SFltb b a = false.
Proof.
  intros H. destruct (SFltb b a) eqn:Hba; [ | reflexivity ].
  pose proof (SFltb_not_SFleb _ _ H) as Hn.
  rewrite (SFltb_SFleb _ _ Hba) in Hn. discriminate.
Qed.

Lemma lt_nan_l (x : spec_float) : F64.lt F64.nan x = false.
Proof. reflexivity. Qed.

Lemma lt_nan_r (x : spec_float) : F64.lt x F64.nan = false.
Proof. destruct x as [?|?| |? ? ?]; reflexivity. Qed.

Lemma sub_nan_l (x : spec_float) : F64.sub F64.nan x = F64.nan.
Proof. reflexivity. Qed.

Lemma sub_nan_r (x : spec_float) : F64.sub x F64.nan = F64.nan.
Proof. destruct x as [?|?| |? ? ?]; reflexivity. Qed.

(** X12. CALL_EXIT and PUT_EXIT hold together on a bar exactly when the
    trend has collapsed (|+DI20 - -DI20| < 10): the two price tests never
    hold together.  Where the close or the 8-bar average is missing, each
    exit is the trend test alone; where +DI20 or -DI20 is missing, the
    trend test is false and each exit is its price test alone. *)
Theorem exits_share_trend_test (r : row) :
  call_exit r && put_exit r = trend_collapsed r /\
  (Close (r_bar r) = F64.nan \/ MA8 r = F64.nan ->
   call_exit r = trend_collapsed r /\ put_exit r = trend_collapsed r) /\
  (DI20_pos r = F64.nan \/ DI20_neg r = F64.nan ->
   trend_collapsed r = false /\
   call_exit r = F64.lt (Close (r_bar r)) (MA8 r) /\
   put_exit r = F64.gt (Close (r_bar r)) (MA8 r)).
Proof.
  unfold call_exit, put_exit, trend_collapsed, F64.gt.
  split; [ | split ].
  - destruct (F64.lt (F64.abs (F64.sub (DI20_pos r) (DI20_neg r)))
                (F64.of_Z 10)); [ reflexivity | ].
    simpl. destruct (F64.lt (Close (r_bar r)) (MA8 r)) eqn:H;
      [ | reflexivity ].
    simpl. apply SFltb_asym, H.
  - intros [-> | ->]; rewrite ?lt_nan_l, ?lt_nan_r, !orb_false_r;
      split; reflexivity.
  - intros [-> | ->]; rewrite ?sub_nan_l, ?sub_nan_r;
      repeat split; reflexivity.
Qed.

Lemma le_not_nan (x y : spec_float) :
  F64.le x y = true -> F64.is_nan x = false /\ F64.is_nan y = false.
Proof.
  destruct x as [?|?| |? ? ?], y as [?|?| |? ? ?]; simpl;
    intros H; try discriminate; split; reflexivity.
Qed.

Lemma SFleb_total (a b : spec_float) :
  F64.is_nan a = false -> F64.is_nan b = false ->
  SFleb a b = false -> SFleb b a = true.
Proof.
  unfold SFleb, SFcompare.
  destruct a as [[]|[]| |[] ma ea], b as [[]|[]| |[] mb eb]; simpl;
    try reflexivity; try discriminate; intros _ _ H;
    order_cases; simpl in *; try reflexivity; try discriminate; try lia.
Qed.

Lemma insert_by_BB60_sorted (a : signal_row) (l : list signal_row) :
  F64.is_nan (BB60 (sr_row a)) = false ->
  Forall (fun b => F64.is_nan (BB60 (sr_row b)) = false) l ->
  StronglySorted BB60_le l ->
  StronglySorted BB60_le (insert_by_BB60 a l).
Proof.
  intros Ha. induction l as [|b l IH]; intros Hl Hs; simpl.
  - constructor; constructor.
  - inversion Hl as [|? ? Hb Hl']; subst.
    inversion Hs as [|? ? Hs' Hbl]; subst.
    unfold BB60_before. rewrite Hb. simpl.
    destruct (F64.le (BB60 (sr_row a)) (BB60 (sr_row b))) eqn:Hab.
    + constructor; [ exact Hs | ].
      constructor; [ exact Hab | ].
      rewrite List.Forall_forall in Hbl |- *. intros c Hc.
      exact (SFleb_trans _ _ _ Hab (Hbl c Hc)).
    + constructor; [ apply IH; assumption | ].
      apply (Permutation_Forall (Permutation_sym (insert_by_BB60_perm a l))).
      constructor; [ | exact Hbl ].
      apply SFleb_total; assumption.
Qed.

Lemma sort_values_BB60_sorted (l : list signal_row) :
  Forall (fun b => F64.is_nan (BB60 (sr_row b)) = false) l ->
  StronglySorted BB60_le (sort_values_BB60 l).
Proof.
  induction l as [|a l IH]; intros H; simpl; [ constructor | ].
  inversion H as [|? ? Ha Hl]; subst.
  apply insert_by_BB60_sorted; [ exact Ha | | apply IH, Hl ].
  apply (Permutation_Forall (Permutation_sym (sort_values_BB60_perm l))), Hl.
Qed.

Lemma run_script_dashboard (download : string -> raw_frame) (ta : ta_lib)
    (stocks : list string) (w w' : world) (d : dashboard) :
  run_script download ta stocks w = (Ok d, w') ->
  exists df, table d = compose df /\
             call_side d = call_df (compose df) /\
             put_side d = put_df (compose df).
Proof.
  unfold run_script.
  destruct (main_pipeline download ta stocks w) as [[df|e] w1];
    intros [= <- _]. exists df. auto.
Qed.

Lemma call_entry_BB60 (r : row) :
  call_entry r = true -> F64.le (BB60 r) (F64.of_Z 35) = true.
Proof.
  unfold call_entry. rewrite !andb_true_iff. tauto.
Qed.

Lemma put_entry_BB60 (r : row) :
  put_entry r = true -> F64.le (BB60 r) (F64.of_Z 35) = true.
Proof.
  unfold put_entry. rewrite !andb_true_iff. tauto.
Qed.

(** X13. In every dashboard the script produces, each view lists its
    rows by ascending BB60 (every row's BB60 is at most that of every
    row after it), every BB60 shown is a number no greater than 35, and
    no row appears in both views. *)
Theorem views_ascending_disjoint (download : string -> raw_frame)
    (ta : ta_lib) (stocks : list string) (w w' : world) (d : dashboard) :
  run_script download ta stocks w = (Ok d, w') ->
  StronglySorted BB60_le (call_side d) /\
  StronglySorted BB60_le (put_side d) /\
  (forall s, In s (call_side d) \/ In s (put_side d) ->
             F64.le (BB60 (sr_row s)) (F64.of_Z 35) = true /\
             F64.is_nan (BB60 (sr_row s)) = false) /\
  (forall s, In s (call_side d) -> ~ In s (put_side d)).
Proof.
  intros Hrun.
  destruct (run_script_dashboard _ _ _ _ _ _ Hrun) as (df & Ht & -> & ->).
  assert (Hc : forall s, In s (call_df (compose df)) ->
                         F64.le (BB60 (sr_row s)) (F64.of_Z 35) = true).
  { intros s Hs. apply call_df_In in Hs. destruct Hs as (Hin & He & _).
    destruct (compose_row df s Hin) as (_ & _ & Hce & _).
    apply call_entry_BB60. congruence. }
  assert (Hp : forall s, In s (put_df (compose df)) ->
                         F64.le (BB60 (sr_row s)) (F64.of_Z 35) = true).
  { intros s Hs. apply put_df_In in Hs. destruct Hs as (Hin & He & _).
    destruct (compose_row df s Hin) as (_ & _ & _ & Hpe & _).
    apply put_entry_BB60. congruence. }
  split; [ | split; [ | split ] ].
  - unfold call_df. apply sort_values_BB60_sorted.
    apply List.Forall_forall. intros s Hs.
    apply (le_not_nan _ (F64.of_Z 35)), Hc.
    unfold call_df.
    apply (Permutation_in _ (Permutation_sym (sort_values_BB60_perm _))), Hs.
  - unfold put_df. apply sort_values_BB60_sorted.
    apply List.Forall_forall. intros s Hs.
    apply (le_not_nan _ (F64.of_Z 35)), Hp.
    unfold put_df.
    apply (Permutation_in _ (Permutation_sym (sort_values_BB60_perm _))), Hs.
  - intros s [Hs | Hs]; [ apply Hc in Hs | apply Hp in Hs ];
      (split; [ exact Hs | apply (le_not_nan _ _ Hs) ]).
  - intros s Hs1 Hs2.
    apply call_df_In in Hs1. destruct Hs1 as (Hin & He1 & _).
    apply put_df_In in Hs2. destruct Hs2 as (_ & He2 & _).
    destruct (compose_row df s Hin) as (_ & _ & Hce & Hpe & _).
    pose proof (entries_exclusive (sr_row s)) as Hx.
    rewrite <- Hce, <- Hpe, He1, He2 in Hx. discriminate.
Qed.

Lemma views_ascending_disjoint_witness :
  exists d w',
    run_script sample_download sample_ta sample_stocks fresh_world
    = (Ok d, w') /\
    call_side d <> [] /\
    StronglySorted BB60_le (call_side d).
Proof.
  destruct (run_script sample_download sample_ta sample_stocks fresh_world)
    as [[d|e] w'] eqn:Hrun; [ | vm_compute in Hrun; discriminate ].
  exists d, w'. split; [ reflexivity | ].
  split.
  - intros Hnil. vm_compute in Hrun. injection Hrun as <- _. discriminate.
  - apply (views_ascending_disjoint _ _ _ _ _ _ Hrun).
Defined.

(* ===================================================================== *)
(** ** The composer and the order and mix of instruments *)
(* ===================================================================== *)

Lemma ts_min_utc (a b : timestamp) :
  ts_utc (ts_min a b) = Z.min (ts_utc a) (ts_utc b).
Proof.
  unfold ts_min. destruct (Z.ltb_spec (ts_utc b) (ts_utc a)); lia.
Qed.

Lemma group_min_cons_utc (stock : string) (r : row) (df : list row) :
  option_map ts_utc (group_min stock (r :: df))
  = if String.eqb (Stock (r_bar r)) stock then
      match entry_time r, option_map ts_utc (group_min stock df) with
      | Some t, Some z => Some (Z.min (ts_utc t) z)
      | Some t, None => Some (ts_utc t)
      | None, o => o
      end
    else option_map ts_utc (group_min stock df).
Proof.
  simpl. destruct (String.eqb (Stock (r_bar r)) stock); [ | reflexivity ].
  destruct (entry_time r) as [t|]; [ | reflexivity ].
  destruct (group_min stock df) as [m|]; simpl; [ | reflexivity ].
  rewrite ts_min_utc. reflexivity.
Qed.

Lemma group_min_perm (stock : string) (df df' : list row) :
  Permutation df df' ->
  option_map ts_utc (group_min stock df)
  = option_map ts_utc (group_min stock df').
Proof.
  induction 1 as [|x l l' _ IH|x y l|l l' l'' _ IH1 _ IH2].
  - reflexivity.
  - rewrite !group_min_cons_utc, IH. reflexivity.
  - rewrite !group_min_cons_utc.
    destruct (String.eqb (Stock (r_bar x)) stock),
             (String.eqb (Stock (r_bar y)) stock),
             (entry_time x) as [tx|], (entry_time y) as [ty|],
             (option_map ts_utc (group_min stock l)) as [z|];
      try reflexivity; f_equal; lia.
  - congruence.
Qed.

Lemma duration_min_perm (df df' : list row) (r : row) :
  Permutation df df' -> duration_min df r = duration_min df' r.
Proof.
  intros H. pose proof (group_min_perm (Stock (r_bar r)) df df' H) as Hm.
  unfold duration_min.
  destruct (group_min (Stock (r_bar r)) df) as [m|],
           (group_min (Stock (r_bar r)) df') as [m'|];
    simpl in Hm; try discriminate; [ | reflexivity ].
  injection Hm as ->. reflexivity.
Qed.

Lemma filter_perm {A : Type} (f : A -> bool) (l l' : list A) :
  Permutation l l' -> Permutation (List.filter f l) (List.filter f l').
Proof.
  induction 1 as [|x l l' _ IH|x y l|l l' l'' _ IH1 _ IH2]; simpl.
  - constructor.
  - destruct (f x); [ constructor | ]; exact IH.
  - destruct (f x), (f y); try apply Permutation_refl. apply perm_swap.
  - eapply Permutation_trans; eassumption.
Qed.

(** X14. The composed table does not depend on the order in which the
    bars were concatenated: frames that hold the same bars in another
    order (another order of the instrument list, say) give the same
    signal rows, with the same flags, entry times and durations, each
    as often. *)
Theorem compose_order_irrelevant (df df' : list row) :
  Permutation df df' -> Permutation (compose df) (compose df').
Proof.
  intros H. unfold compose.
  pose proof (filter_perm (fun r => time_ge (Time_of r) ten_oclock) _ _ H)
    as Hf.
  fold (time_filter df) in Hf. fold (time_filter df') in Hf.
  rewrite (map_ext
    (fun r => {| sr_row := r; Time := Time_of r;
                 CALL_ENTRY := call_entry r; PUT_ENTRY := put_entry r;
                 CALL_EXIT := call_exit r; PUT_EXIT := put_exit r;
                 Entry_Time := entry_time r;
                 Duration_Min := duration_min (time_filter df') r |})
    (fun r => {| sr_row := r; Time := Time_of r;
                 CALL_ENTRY := call_entry r; PUT_ENTRY := put_entry r;
                 CALL_EXIT := call_exit r; PUT_EXIT := put_exit r;
                 Entry_Time := entry_time r;
                 Duration_Min := duration_min (time_filter df) r |})).
  - apply Permutation_map, Hf.
  - intros r. f_equal. apply duration_min_perm, Permutation_sym, Hf.
Qed.

Lemma compose_order_irrelevant_witness :
  Permutation (compose duration_sample) (compose (rev duration_sample)).
Proof.
  apply compose_order_irrelevant, Permutation_rev.
Defined.

Lemma group_min_of_stock (stock : string) (df : list row) :
  group_min stock (List.filter (of_stock stock) df) = group_min stock df.
Proof.
  induction df as [|r df IH]; [ reflexivity | ].
  simpl. unfold of_stock at 1.
  destruct (String.eqb (Stock (r_bar r)) stock) eqn:E; [ | exact IH ].
  simpl. rewrite E, IH. reflexivity.
Qed.

Lemma filter_comm {A : Type} (f g : A -> bool) (l : list A) :
  List.filter f (List.filter g l) = List.filter g (List.filter f l).
Proof.
  induction l as [|a l IH]; [ reflexivity | ].
  simpl. destruct (g a) eqn:Eg, (f a) eqn:Ef; simpl;
    rewrite ?Eg, ?Ef, IH; reflexivity.
Qed.

Lemma filter_map_section {A B : Type} (f : A -> bool) (g : A -> B)
    (p : B -> A) (l : list A) :
  (forall a, p (g a) = a) ->
  List.filter (fun b => f (p b)) (map g l) = map g (List.filter f l).
Proof.
  intros Hp. induction l as [|a l IH]; [ reflexivity | ].
  simpl. rewrite Hp. destruct (f a); simpl; rewrite IH; reflexivity.
Qed.

Lemma compose_of_stock (stock : string) (df : list row) :
  List.filter (fun s => of_stock stock (sr_row s)) (compose df)
  = compose (List.filter (of_stock stock) df).
Proof.
  unfold compose.
  rewrite (filter_map_section (of_stock stock) _ sr_row)
    by (intros a; reflexivity).
  unfold time_filter at 3 4.
  rewrite (filter_comm _ (of_stock stock) df).
  fold (time_filter df).
  apply map_ext_in. intros r Hr. apply filter_In in Hr.
  destruct Hr as [_ Hst]. unfold of_stock in Hst.
  apply String.eqb_eq in Hst.
  f_equal. unfold duration_min. rewrite Hst.
  rewrite group_min_of_stock. reflexivity.
Qed.

(** X15. Other instruments do not influence a row of the composed table:
    every row of the table, with its flags, entry time and duration, is
    also a row of the table composed from the rows of its own instrument
    alone. *)
Theorem row_depends_on_own_instrument (df : list row) (s : signal_row) :
  In s (compose df) ->
  In s (compose (List.filter (of_stock (Stock (r_bar (sr_row s)))) df)).
Proof.
  intros Hs. rewrite <- compose_of_stock. apply filter_In.
  split; [ exact Hs | ]. unfold of_stock. apply String.eqb_refl.
Qed.

Lemma row_depends_on_own_instrument_witness :
  exists s,
    In s (compose duration_sample) /\
    Duration_Min s = F64.of_Z 40 /\
    In s (compose (List.filter (of_stock "X.NS") duration_sample)).
Proof.
  eexists. split; [ do 4 right; left; reflexivity | ].
  split; [ reflexivity | ].
  apply (row_depends_on_own_instrument duration_sample).
  do 4 right. left. reflexivity.
Defined.

(* ===================================================================== *)
(** ** An indicator class that raises *)
(* ===================================================================== *)





